(** * Student grade manager: the record store of [code_made_by_ai.py]

    A shallow embedding of the classes [Student] and [StudentManager]
    and the properties of their specification.

    Modelling choices, fixed once for the whole development.

    - Python values that the store only carries around (names, ages,
      genders, scores, the persisted document) are values of [pyval],
      the shapes [json.load] can produce.
    - A [dict] is an association list in insertion order with the
      update-in-place semantics of Python dictionaries.  Its keys are
      strings, as the annotations [Dict[str, ...]] and JSON objects
      have them.
    - A binary64 number is modelled by the rational it denotes, or by
      one of [nan], [inf], [-inf]; comparisons are exact, rounding and
      overflow of arithmetic are outside the model.  The numbered
      properties on sums and averages therefore state what holds
      whatever the rounding: bounds, order, membership.  What holds of
      exact sums and means only is kept in lemmas whose name or
      comment says so.
    - An exception is a value of [exn]; code that can raise returns a
      [result].
    - The backing file is a component of the manager state: it is
      missing, or unreadable, or holds a parsed JSON document.
      [json.dump] followed by [json.load] is the identity on [pyval];
      a value that [json.dump] cannot print (an integer of thousands
      of digits) is outside the model. *)

From Stdlib Require Import List String Ascii ZArith QArith Bool Lia Lqa.
Import ListNotations.

Set Implicit Arguments.
Set Warnings "-register-all".

(* ================================================================== *)
(** ** Python values *)

Module Py.

(** Exceptions raised by the modelled code.  [IllTyped] is not a
    Python exception: it marks a document whose field has another
    type than the annotation of the attribute it is stored in (Python
    would keep the value as it is); such records are outside the
    typed model. *)
Inductive exn : Type :=
| KeyError (key : string)
| TypeError
| ValueError
| AttributeError
| ZeroDivisionError
| OSError
| JSONDecodeError
| IllTyped.

Inductive result (A : Type) : Type :=
| Ok (a : A)
| Raise (e : exn).
Arguments Ok {A} a.
Arguments Raise {A} e.

Definition bind {A B : Type} (c : result A) (k : A -> result B) : result B :=
  match c with
  | Ok a => k a
  | Raise e => Raise e
  end.

(** [float]: the rational denoted, or a special value. *)
Inductive pyfloat : Type :=
| Finite (q : Q)
| PosInf
| NegInf
| NaN.

Inductive pyval : Type :=
| PyNone
| PyBool (b : bool)
| PyInt (z : Z)
| PyFloat (f : pyfloat)
| PyStr (s : string)
| PyList (l : list pyval)
| PyDict (d : list (string * pyval)).

(** *** Dictionaries *)

Definition dict (V : Type) : Type := list (string * V).

Section Dict.
Variable V : Type.

(** [d.get(k)] *)
Fixpoint dict_get (d : dict V) (k : string) : option V :=
  match d with
  | [] => None
  | (k', v) :: d' => if String.eqb k k' then Some v else dict_get d' k
  end.

(** [k in d] *)
Definition dict_contains (d : dict V) (k : string) : bool :=
  match dict_get d k with
  | Some _ => true
  | None => false
  end.

(** [d[k] = v]: an existing key keeps its position, a new key is
    appended. *)
Fixpoint dict_set (d : dict V) (k : string) (v : V) : dict V :=
  match d with
  | [] => [(k, v)]
  | (k', v') :: d' =>
      if String.eqb k k' then (k', v) :: d' else (k', v') :: dict_set d' k v
  end.

(** [del d[k]] *)
Fixpoint dict_del (d : dict V) (k : string) : dict V :=
  match d with
  | [] => []
  | (k', v') :: d' =>
      if String.eqb k k' then dict_del d' k else (k', v') :: dict_del d' k
  end.

Definition dict_keys (d : dict V) : list string := map fst d.
Definition dict_values (d : dict V) : list V := map snd d.
Definition dict_items (d : dict V) : list (string * V) := d.
Definition len (d : dict V) : Z := Z.of_nat (List.length d).

(** [not d] *)
Definition dict_is_empty (d : dict V) : bool :=
  match d with
  | [] => true
  | _ :: _ => false
  end.
End Dict.

(** [{k: f(v) for k, v in items}]: entries are inserted one after the
    other; the first exception ends the comprehension. *)
Fixpoint dict_comprehension_from {A V : Type} (f : A -> result V)
         (items : list (string * A)) (acc : dict V) : result (dict V) :=
  match items with
  | [] => Ok acc
  | (k, a) :: rest =>
      bind (f a) (fun v => dict_comprehension_from f rest (dict_set acc k v))
  end.

Definition dict_comprehension {A V : Type} (f : A -> result V)
           (items : list (string * A)) : result (dict V) :=
  dict_comprehension_from f items [].

(** [[f(x) for x in l]] *)
Fixpoint list_comprehension {A B : Type} (f : A -> result B) (l : list A)
  : result (list B) :=
  match l with
  | [] => Ok []
  | x :: rest =>
      bind (f x) (fun y =>
      bind (list_comprehension f rest) (fun ys => Ok (y :: ys)))
  end.

(** *** Numbers *)

Definition Qltb (x y : Q) : bool := negb (Qle_bool y x).

(** [a < b] on floats: every comparison with [nan] is false. *)
Definition flt (a b : pyfloat) : bool :=
  match a, b with
  | NaN, _ | _, NaN => false
  | Finite x, Finite y => Qltb x y
  | NegInf, NegInf => false
  | NegInf, _ => true
  | Finite _, PosInf => true
  | _, _ => false
  end.

Definition fgt (a b : pyfloat) : bool := flt b a.

(** [a <= b] on floats. *)
Definition fle (a b : pyfloat) : bool :=
  match a, b with
  | NaN, _ | _, NaN => false
  | Finite x, Finite y => Qle_bool x y
  | NegInf, _ => true
  | _, PosInf => true
  | _, _ => false
  end.

Definition fge (a b : pyfloat) : bool := fle b a.

Definition fadd (a b : pyfloat) : pyfloat :=
  match a, b with
  | NaN, _ | _, NaN => NaN
  | Finite x, Finite y => Finite (Qred (x + y))
  | PosInf, NegInf | NegInf, PosInf => NaN
  | PosInf, _ | _, PosInf => PosInf
  | NegInf, _ | _, NegInf => NegInf
  end.

(** [a / n] for a non-zero integer [n]. *)
Definition fdiv_int (a : pyfloat) (n : Z) : pyfloat :=
  match a with
  | Finite x => Finite (Qred (x / inject_Z n))
  | PosInf => if (0 <? n)%Z then PosInf else NegInf
  | NegInf => if (0 <? n)%Z then NegInf else PosInf
  | NaN => NaN
  end.

Definition float_of_Z (z : Z) : pyfloat := Finite (inject_Z z).

(** [isinstance(v, (int, float))]; [bool] is a subclass of [int]. *)
Definition is_number (v : pyval) : bool :=
  match v with
  | PyBool _ | PyInt _ | PyFloat _ => true
  | _ => false
  end.

Definition int_value (v : pyval) : option Z :=
  match v with
  | PyBool b => Some (if b then 1 else 0)%Z
  | PyInt z => Some z
  | _ => None
  end.

(** The number a numeric value denotes, as a float. *)
Definition float_value (v : pyval) : option pyfloat :=
  match v with
  | PyFloat f => Some f
  | _ => option_map float_of_Z (int_value v)
  end.

(** [a < b] and [a > b] between numbers.  On a value that is not a
    number Python raises; the one caller guards both comparisons by
    [is_number], so that case is given the value [false]. *)
Definition py_lt (a b : pyval) : bool :=
  match float_value a, float_value b with
  | Some x, Some y => flt x y
  | _, _ => false
  end.

Definition py_gt (a b : pyval) : bool := py_lt b a.

(** [acc + v] where [acc] is a number: the step of [sum]. *)
Definition num_add (acc v : pyval) : result pyval :=
  match int_value acc, int_value v with
  | Some x, Some y => Ok (PyInt (x + y))
  | _, _ =>
      match float_value acc, float_value v with
      | Some x, Some y => Ok (PyFloat (fadd x y))
      | _, _ => Raise TypeError
      end
  end.

Fixpoint sum_from (acc : pyval) (l : list pyval) : result pyval :=
  match l with
  | [] => Ok acc
  | v :: rest => bind (num_add acc v) (fun acc' => sum_from acc' rest)
  end.

(** [sum(l)] *)
Definition py_sum (l : list pyval) : result pyval := sum_from (PyInt 0) l.

(** [a / n], true division of a number by an [int]: always a float. *)
Definition truediv_int (a : pyval) (n : Z) : result pyfloat :=
  match float_value a with
  | None => Raise TypeError
  | Some x => if (n =? 0)%Z then Raise ZeroDivisionError else Ok (fdiv_int x n)
  end.

(** [max(l)] and [min(l)]: the first element is kept until a strictly
    greater (smaller) one is met. *)
Fixpoint max_from (m : pyfloat) (l : list pyfloat) : pyfloat :=
  match l with
  | [] => m
  | x :: rest => max_from (if fgt x m then x else m) rest
  end.

Fixpoint min_from (m : pyfloat) (l : list pyfloat) : pyfloat :=
  match l with
  | [] => m
  | x :: rest => min_from (if flt x m then x else m) rest
  end.

Definition py_max (l : list pyfloat) : result pyfloat :=
  match l with
  | [] => Raise ValueError
  | x :: rest => Ok (max_from x rest)
  end.

Definition py_min (l : list pyfloat) : result pyfloat :=
  match l with
  | [] => Raise ValueError
  | x :: rest => Ok (min_from x rest)
  end.

(** *** Operations on dynamically typed values *)

(** [v[k]] for a string [k]. *)
Definition py_getitem (v : pyval) (k : string) : result pyval :=
  match v with
  | PyDict d =>
      match dict_get d k with
      | Some x => Ok x
      | None => Raise (KeyError k)
      end
  | _ => Raise TypeError
  end.

(** [v.get(k, default)] *)
Definition py_get (v : pyval) (k : string) (default : pyval) : result pyval :=
  match v with
  | PyDict d =>
      match dict_get d k with
      | Some x => Ok x
      | None => Ok default
      end
  | _ => Raise AttributeError
  end.

(** [v.items()] *)
Definition py_items (v : pyval) : result (list (string * pyval)) :=
  match v with
  | PyDict d => Ok (dict_items d)
  | _ => Raise AttributeError
  end.

End Py.

Import Py.

Declare Scope py_scope.
Notation "x <- c ;; k" := (bind c (fun x => k))
  (at level 61, c at next level, right associativity) : py_scope.
Open Scope py_scope.

(* ================================================================== *)
(** ** [datetime]: naive timestamps and their ISO 8601 text *)

Module Datetime.

Record datetime : Type := mkDatetime {
  year : Z;
  month : Z;
  day : Z;
  hour : Z;
  minute : Z;
  second : Z;
  microsecond : Z
}.

Definition is_leap (y : Z) : bool :=
  ((y mod 4 =? 0) && (negb (y mod 100 =? 0) || (y mod 400 =? 0)))%Z.

Definition days_in_month (y m : Z) : Z :=
  if (m =? 2)%Z then (if is_leap y then 29 else 28)
  else if ((m =? 4) || (m =? 6) || (m =? 9) || (m =? 11))%Z then 30
  else 31.

Definition between (lo x hi : Z) : bool := ((lo <=? x) && (x <=? hi))%Z.

(** The range checks of the [datetime] constructor. *)
Definition valid (t : datetime) : bool :=
  between 1 (year t) 9999 &&
  between 1 (month t) 12 &&
  between 1 (day t) (days_in_month (year t) (month t)) &&
  between 0 (hour t) 23 &&
  between 0 (minute t) 59 &&
  between 0 (second t) 59 &&
  between 0 (microsecond t) 999999.

Definition digit_char (d : Z) : ascii := ascii_of_nat (48 + Z.to_nat d).

Definition digit_value (c : ascii) : option Z :=
  let n := Z.of_nat (nat_of_ascii c) in
  if between 48 n 57 then Some (n - 48)%Z else None.

(** ["%0wd" % n] for [0 <= n < 10^w]: the [w] decimal digits of [n],
    most significant first. *)
Fixpoint zero_padded (w : nat) (n : Z) : list ascii :=
  match w with
  | O => []
  | S w' => digit_char ((n / 10 ^ Z.of_nat w') mod 10) :: zero_padded w' n
  end.

(** Reads exactly [w] decimal digits. *)
Fixpoint take_digits (w : nat) (acc : Z) (cs : list ascii)
  : option (Z * list ascii) :=
  match w with
  | O => Some (acc, cs)
  | S w' =>
      match cs with
      | [] => None
      | c :: rest =>
          match digit_value c with
          | Some d => take_digits w' (10 * acc + d) rest
          | None => None
          end
      end
  end.

Definition take_char (c : ascii) (cs : list ascii) : option (list ascii) :=
  match cs with
  | [] => None
  | c' :: rest => if Ascii.eqb c c' then Some rest else None
  end.

Definition take_any (cs : list ascii) : option (list ascii) :=
  match cs with
  | [] => None
  | _ :: rest => Some rest
  end.

Definition obind {A B : Type} (o : option A) (k : A -> option B) : option B :=
  match o with
  | Some a => k a
  | None => None
  end.

(** [t.isoformat()] of a naive timestamp:
    [YYYY-MM-DDTHH:MM:SS], followed by [.ffffff] when the microsecond
    is not zero. *)
Definition isoformat (t : datetime) : string :=
  string_of_list_ascii
    (zero_padded 4 (year t) ++ "-"%char ::
     zero_padded 2 (month t) ++ "-"%char ::
     zero_padded 2 (day t) ++ "T"%char ::
     zero_padded 2 (hour t) ++ ":"%char ::
     zero_padded 2 (minute t) ++ ":"%char ::
     zero_padded 2 (second t) ++
     (if (microsecond t =? 0)%Z then []
      else "."%char :: zero_padded 6 (microsecond t))).

(** The fields of [YYYY-MM-DD?HH:MM:SS[.ffffff]], where [?] is any one
    character. *)
Definition parse_fields (cs : list ascii) : option datetime :=
  obind (take_digits 4 0 cs) (fun '(y, cs) =>
  obind (take_char "-" cs) (fun cs =>
  obind (take_digits 2 0 cs) (fun '(m, cs) =>
  obind (take_char "-" cs) (fun cs =>
  obind (take_digits 2 0 cs) (fun '(d, cs) =>
  obind (take_any cs) (fun cs =>
  obind (take_digits 2 0 cs) (fun '(h, cs) =>
  obind (take_char ":" cs) (fun cs =>
  obind (take_digits 2 0 cs) (fun '(mi, cs) =>
  obind (take_char ":" cs) (fun cs =>
  obind (take_digits 2 0 cs) (fun '(s, cs) =>
  match cs with
  | [] => Some (mkDatetime y m d h mi s 0)
  | _ =>
      obind (take_char "." cs) (fun cs =>
      obind (take_digits 6 0 cs) (fun '(us, cs) =>
      match cs with
      | [] => Some (mkDatetime y m d h mi s us)
      | _ => None
      end))
  end))))))))))).

(** [datetime.fromisoformat(s)], on the texts [isoformat] writes for a
    naive timestamp (the only ones [save_data] produces).  The library
    accepts some further ISO 8601 forms; the model raises [ValueError]
    on them. *)
Definition fromisoformat (s : string) : result datetime :=
  match parse_fields (list_ascii_of_string s) with
  | Some t => if valid t then Ok t else Raise ValueError
  | None => Raise ValueError
  end.

End Datetime.

Import Datetime.

(* ================================================================== *)
(** ** [class Student] *)

(** The attributes of a [Student].  [student_id] is the key of the
    store and [scores] is the dictionary [add_score] writes to: they
    have the types of their annotations.  [name], [age] and [gender]
    are stored and copied only, and [update_student] assigns them
    whatever it is given: they are Python values. *)
Record Student : Type := mkStudent {
  student_id : string;
  name : pyval;
  age : pyval;
  gender : pyval;
  scores : dict pyval;
  create_time : datetime
}.

Definition set_name (self : Student) (v : pyval) : Student :=
  mkStudent (student_id self) v (age self) (gender self) (scores self)
            (create_time self).

Definition set_age (self : Student) (v : pyval) : Student :=
  mkStudent (student_id self) (name self) v (gender self) (scores self)
            (create_time self).

Definition set_gender (self : Student) (v : pyval) : Student :=
  mkStudent (student_id self) (name self) (age self) v (scores self)
            (create_time self).

Definition set_scores (self : Student) (d : dict pyval) : Student :=
  mkStudent (student_id self) (name self) (age self) (gender self) d
            (create_time self).

Definition set_create_time (self : Student) (t : datetime) : Student :=
  mkStudent (student_id self) (name self) (age self) (gender self)
            (scores self) t.

(** [Student(student_id, name, age, gender)], with the reading [now] of
    the clock. *)
Definition Student_init (sid : string) (nm ag gd : pyval) (now : datetime)
  : Student :=
  mkStudent sid nm ag gd [] now.

(** [Student.add_score] *)
Definition add_score (self : Student) (subject : string) (score : pyval)
  : Student * bool :=
  if negb (is_number score) || py_lt score (PyInt 0) || py_gt score (PyInt 100)
  then (self, false)
  else (set_scores self (dict_set (scores self) subject score), true).

(** [Student.get_average_score] *)
Definition get_average_score (self : Student) : result pyfloat :=
  if dict_is_empty (scores self) then Ok (Finite 0)
  else
    total <- py_sum (dict_values (scores self)) ;;
    truediv_int total (len (scores self)).

(** [Student.get_total_score] *)
Definition get_total_score (self : Student) : result pyval :=
  py_sum (dict_values (scores self)).

(** [Student.to_dict] *)
Definition to_dict (self : Student) : pyval :=
  PyDict [ ("student_id", PyStr (student_id self));
           ("name", name self);
           ("age", age self);
           ("gender", gender self);
           ("scores", PyDict (scores self));
           ("create_time", PyStr (isoformat (create_time self))) ]%string.

(** The annotated type of an attribute, imposed on a value read from a
    document. *)
Definition as_str (v : pyval) : result string :=
  match v with
  | PyStr s => Ok s
  | _ => Raise IllTyped
  end.

Definition as_dict (v : pyval) : result (dict pyval) :=
  match v with
  | PyDict d => Ok d
  | _ => Raise IllTyped
  end.

(** [datetime.fromisoformat(v)]: the argument must be a [str]. *)
Definition py_fromisoformat (v : pyval) : result datetime :=
  match v with
  | PyStr s => fromisoformat s
  | _ => Raise TypeError
  end.

(** [Student.from_dict].  The constructor call reads the clock, and the
    reading is overwritten by the [create_time] of the document: the
    record is built with that one directly.  No field is validated.
    The typed record ends where a document gives [student_id] or
    [scores] a value of another type than the annotations [str] and
    [Dict]: Python stores the value as it is, here the answer is
    [IllTyped]. *)
Definition from_dict (data : pyval) : result Student :=
  sid <- py_getitem data "student_id" ;;
  nm <- py_getitem data "name" ;;
  ag <- py_getitem data "age" ;;
  gd <- py_getitem data "gender" ;;
  sid <- as_str sid ;;
  sc <- py_get data "scores" (PyDict []) ;;
  sc <- as_dict sc ;;
  ct <- py_getitem data "create_time" ;;
  ct <- py_fromisoformat ct ;;
  Ok (mkStudent sid nm ag gd sc ct).

(* ================================================================== *)
(** ** [class StudentManager] *)

(** What is found at the path [data_file]. *)
Inductive file_content : Type :=
| Missing
| Unreadable (e : exn)
| Document (doc : pyval).

(** The backing file: its content, and whether opening it for writing
    succeeds. *)
Record file : Type := mkFile {
  content : file_content;
  writable : bool
}.

Record StudentManager : Type := mkManager {
  data_file : file;
  students : dict Student
}.

Definition set_students (self : StudentManager) (m : dict Student)
  : StudentManager :=
  mkManager (data_file self) m.

Definition write_document (self : StudentManager) (doc : pyval)
  : StudentManager :=
  mkManager (mkFile (Document doc) (writable (data_file self))) (students self).

(** The document [save_data] writes. *)
Definition document_of (m : dict Student) : result pyval :=
  recs <- dict_comprehension (fun student => Ok (to_dict student)) (dict_items m) ;;
  Ok (PyDict [("students"%string, PyDict recs)]).

(** [StudentManager.save_data]: any exception is caught and reported as
    [False]; a failed [open] leaves the file as it was. *)
Definition save_data (self : StudentManager) : StudentManager * bool :=
  match document_of (students self) with
  | Ok data =>
      if writable (data_file self) then (write_document self data, true)
      else (self, false)
  | Raise _ => (self, false)
  end.

(** The records of a parsed document. *)
Definition students_of (data : pyval) : result (dict Student) :=
  recs <- py_get data "students" (PyDict []) ;;
  items <- py_items recs ;;
  dict_comprehension from_dict items.

(** [StudentManager.load_data] *)
Definition load_data (self : StudentManager) : StudentManager * bool :=
  match content (data_file self) with
  | Missing => (self, true)
  | Unreadable _ => (self, false)
  | Document data =>
      match students_of data with
      | Ok m => (set_students self m, true)
      | Raise _ => (self, false)
      end
  end.

(** [StudentManager(data_file)]: an empty mapping, then [load_data],
    whose result is dropped. *)
Definition StudentManager_init (f : file) : StudentManager :=
  fst (load_data (mkManager f [])).

(** [StudentManager.add_student] *)
Definition add_student (self : StudentManager) (student : Student)
  : StudentManager * bool :=
  if dict_contains (students self) (student_id student) then (self, false)
  else
    let self := set_students self
                  (dict_set (students self) (student_id student) student) in
    (fst (save_data self), true).

(** [StudentManager.delete_student] *)
Definition delete_student (self : StudentManager) (sid : string)
  : StudentManager * bool :=
  if negb (dict_contains (students self) sid) then (self, false)
  else
    let self := set_students self (dict_del (students self) sid) in
    (fst (save_data self), true).

(** [StudentManager.find_student] *)
Definition find_student (self : StudentManager) (sid : string)
  : option Student :=
  dict_get (students self) sid.

(** [if key in kwargs: student.attr = kwargs[key]] *)
Definition update_field (kwargs : dict pyval) (key : string)
           (set : Student -> pyval -> Student) (student : Student) : Student :=
  match dict_get kwargs key with
  | Some v => set student v
  | None => student
  end.

(** [for subject, score in items: student.add_score(subject, score)];
    the result of [add_score] is dropped. *)
Fixpoint add_scores (student : Student) (items : list (string * pyval))
  : Student :=
  match items with
  | [] => student
  | (subject, score) :: rest => add_scores (fst (add_score student subject score)) rest
  end.

(** [StudentManager.update_student].  The record is modified in place,
    so the fields assigned before an exception stay assigned. *)
Definition update_student (self : StudentManager) (sid : string)
           (kwargs : dict pyval) : StudentManager * result bool :=
  match dict_get (students self) sid with
  | None => (self, Ok false)
  | Some student =>
      let student := update_field kwargs "name" set_name student in
      let student := update_field kwargs "age" set_age student in
      let student := update_field kwargs "gender" set_gender student in
      let store s := set_students self (dict_set (students self) sid s) in
      match dict_get kwargs "scores"%string with
      | None => (fst (save_data (store student)), Ok true)
      | Some v =>
          match py_items v with
          | Raise e => (store student, Raise e)
          | Ok items =>
              (fst (save_data (store (add_scores student items))), Ok true)
          end
      end
  end.

(** [StudentManager.get_all_students] *)
Definition get_all_students (self : StudentManager) : list Student :=
  dict_values (students self).

(** The aggregate [get_class_statistics] returns. *)
Record statistics : Type := mkStatistics {
  total_students : Z;
  average_score : pyval;
  max_score : pyval;
  min_score : pyval;
  excellent_count : Z;
  fail_count : Z
}.

Definition count (p : pyfloat -> bool) (l : list pyfloat) : Z :=
  Z.of_nat (List.length (filter p l)).

(** [StudentManager.get_class_statistics] *)
Definition get_class_statistics (self : StudentManager) : result statistics :=
  if dict_is_empty (students self) then
    Ok (mkStatistics 0 (PyInt 0) (PyInt 0) (PyInt 0) 0 0)
  else
    let total := len (students self) in
    scores <- list_comprehension get_average_score (dict_values (students self)) ;;
    s <- py_sum (map PyFloat scores) ;;
    mean <- truediv_int s total ;;
    mx <- py_max scores ;;
    mn <- py_min scores ;;
    Ok (mkStatistics total (PyFloat mean) (PyFloat mx) (PyFloat mn)
          (count (fun s => fge s (float_of_Z 90)) scores)
          (count (fun s => flt s (float_of_Z 60)) scores)).

(* ================================================================== *)
(** ** [StudentManager]: searching and filtering *)

(** [needle in s] between two [str]: [needle] occurs somewhere in
    [s]. *)
Fixpoint str_contains (s needle : string) : bool :=
  if String.prefix needle s then true
  else
    match s with
    | EmptyString => false
    | String _ s' => str_contains s' needle
    end.

(** [keyword in v] for a [str] keyword: a substring test on a [str],
    membership on a [list], a key test on a [dict]; the other values
    are not iterable. *)
Definition py_contains (keyword : string) (v : pyval) : result bool :=
  match v with
  | PyStr s => Ok (str_contains s keyword)
  | PyList l =>
      Ok (existsb (fun x => match x with
                            | PyStr s => String.eqb keyword s
                            | _ => false
                            end) l)
  | PyDict d => Ok (dict_contains d keyword)
  | _ => Raise TypeError
  end.

(** The condition of [search_students]; [or] evaluates its right
    operand only when the left one is false. *)
Definition search_matches (keyword : string) (student : Student) : result bool :=
  if str_contains (student_id student) keyword then Ok true
  else
    in_name <- py_contains keyword (name student) ;;
    if in_name then Ok true else py_contains keyword (gender student).

(** [for student in l: if cond(student): result.append(student)], and
    [[s for s in l if cond(s)]]. *)
Fixpoint select (cond : Student -> result bool) (l : list Student)
  : result (list Student) :=
  match l with
  | [] => Ok []
  | student :: rest =>
      keep <- cond student ;;
      others <- select cond rest ;;
      Ok (if keep then student :: others else others)
  end.

(** [StudentManager.search_students] *)
Definition search_students (self : StudentManager) (keyword : string)
  : result (list Student) :=
  select (search_matches keyword) (dict_values (students self)).

(** [a <= b] between numbers; every use has a float on one side, so
    that a value that is not a number on the other raises. *)
Definition py_le (a b : pyval) : result bool :=
  match float_value a, float_value b with
  | Some x, Some y => Ok (fle x y)
  | _, _ => Raise TypeError
  end.

(** [min_score <= student.get_average_score() <= max_score]: the
    second comparison is made only when the first holds. *)
Definition in_score_range (min_score max_score : pyval) (student : Student)
  : result bool :=
  avg_score <- get_average_score student ;;
  above <- py_le min_score (PyFloat avg_score) ;;
  if above then py_le (PyFloat avg_score) max_score else Ok false.

(** [StudentManager.get_students_by_score_range] *)
Definition get_students_by_score_range (self : StudentManager)
           (min_score max_score : pyval) : result (list Student) :=
  select (in_score_range min_score max_score) (dict_values (students self)).

(** The bands of [GradeManagerUI.show_statistics_ui]. *)
Definition ranges : list (Z * Z) :=
  [(90, 100); (80, 89); (70, 79); (60, 69); (0, 59)]%Z.

(** [len([s for s in students if min_r <= s.get_average_score() <= max_r])] *)
Definition range_count (l : list Student) (min_r max_r : Z) : result Z :=
  band <- select (in_score_range (PyInt min_r) (PyInt max_r)) l ;;
  Ok (Z.of_nat (List.length band)).

(** The counts [GradeManagerUI.show_statistics_ui] computes, one per
    band; none when the store has no record.  The text it prints is
    not modelled. *)
Definition show_statistics_ui_counts (self : StudentManager) : result (list Z) :=
  stats <- get_class_statistics self ;;
  if (total_students stats =? 0)%Z then Ok []
  else
    list_comprehension
      (fun '(min_r, max_r) => range_count (get_all_students self) min_r max_r)
      ranges.

(* ================================================================== *)
(** ** The vocabulary of the specification *)

Module Spec.

(** "numeric": an [int] (a [bool] is one) or a [float]. *)
Definition numeric (v : pyval) : Prop := is_number v = true.

(** "numeric and in [0,100]": the value denotes a rational between 0
    and 100. *)
Definition in_range (v : pyval) : Prop :=
  exists q, float_value v = Some (Finite q) /\ 0 <= q /\ q <= 100.

(** A number below 0 or above 100: the numbers the comparisons of
    [add_score] stop.  [nan] is not among them, though it is not in
    [0,100] either. *)
Definition outside_range (v : pyval) : Prop :=
  match float_value v with
  | Some (Finite q) => q < 0 \/ 100 < q
  | Some PosInf | Some NegInf => True
  | Some NaN | None => False
  end.

(** Not numeric, or below 0, or above 100: what [add_score] refuses. *)
Definition invalid_score (v : pyval) : Prop :=
  ~ numeric v \/ outside_range v.

(** The invariant of the data model on scores. *)
Definition valid_scores (d : dict pyval) : Prop :=
  forall subject v, In (subject, v) d -> in_range v.

Definition valid_store (m : dict Student) : Prop :=
  forall sid s, In (sid, s) m -> valid_scores (scores s).

(** A score that denotes a rational, and the rational. *)
Definition finite_number (v : pyval) : Prop :=
  exists q, float_value v = Some (Finite q).

Definition q_of (v : pyval) : Q :=
  match float_value v with
  | Some (Finite q) => q
  | _ => 0
  end.

Definition finite_scores (m : dict Student) : Prop :=
  forall sid s subject v, In (sid, s) m -> In (subject, v) (scores s) ->
                          finite_number v.

Definition Qsum (l : list Q) : Q := fold_right Qplus 0 l.

(** The arithmetic mean, [0] for no value at all. *)
Definition mean (l : list Q) : Q :=
  match l with
  | [] => 0
  | _ :: _ => Qsum l / inject_Z (Z.of_nat (List.length l))
  end.

(** "average score = arithmetic mean of scores.values() (0.0 if
    empty)" *)
Definition average_of (s : Student) : Q :=
  mean (map q_of (dict_values (scores s))).

Definition averages (m : dict Student) : list Q :=
  map average_of (dict_values m).

Definition is_maximum (m : Q) (l : list Q) : Prop :=
  (exists x, In x l /\ x == m) /\ forall x, In x l -> x <= m.

Definition is_minimum (m : Q) (l : list Q) : Prop :=
  (exists x, In x l /\ x == m) /\ forall x, In x l -> m <= x.

Definition count_if (p : Q -> bool) (l : list Q) : Z :=
  Z.of_nat (List.length (filter p l)).

(** "average >= 90" and "average < 60" *)
Definition excellent (a : Q) : bool := Qle_bool 90 a.
Definition failing (a : Q) : bool := negb (Qle_bool 60 a).

(** The value of a field after an update: the supplied one, or the
    old one when none is supplied. *)
Definition supplied (kwargs : dict pyval) (key : string) (old : pyval) : pyval :=
  match dict_get kwargs key with
  | Some v => v
  | None => old
  end.

(** The scores an update supplies: none, or a mapping (each subject
    once). *)
Definition supplies_scores (kwargs : dict pyval) (d : dict pyval) : Prop :=
  (dict_get kwargs "scores" = None /\ d = []) \/
  (dict_get kwargs "scores" = Some (PyDict d) /\ NoDup (dict_keys d)).

(** Every timestamp of the store passes the checks of [datetime]. *)
Definition valid_timestamps (m : dict Student) : Prop :=
  forall sid s, In (sid, s) m -> Datetime.valid (create_time s) = true.

(** [k] occurs in [s]. *)
Definition occurs_in (k s : string) : Prop :=
  exists a b : string, s = (a ++ k ++ b)%string.

(** The keyword occurs in the id, the name or the gender. *)
Definition matches (k : string) (s : Student) : Prop :=
  occurs_in k (student_id s) \/
  (exists n, name s = PyStr n /\ occurs_in k n) \/
  (exists g, gender s = PyStr g /\ occurs_in k g).

(** Names and genders are text. *)
Definition text_fields (m : dict Student) : Prop :=
  forall sid s, In (sid, s) m ->
                (exists n, name s = PyStr n) /\ (exists g, gender s = PyStr g).

(** Every record is stored under its own id. *)
Definition keyed_by_id (m : dict Student) : Prop :=
  forall sid s, In (sid, s) m -> student_id s = sid.

(** [l] keeps some of the elements of [all], in their order. *)
Definition selection_of {A : Type} (l all : list A) : Prop :=
  exists keep : A -> bool, l = filter keep all.

Definition indicator (b : bool) : Z := if b then 1 else 0.

(** The average lies in the band from [lo] to [hi], both included. *)
Definition in_band (lo hi : Z) (a : Q) : bool :=
  Qle_bool (inject_Z lo) a && Qle_bool a (inject_Z hi).

(** The average lies strictly between two neighbouring bands. *)
Definition in_gap (a : Q) : bool :=
  (Qltb 59 a && Qltb a 60) || (Qltb 69 a && Qltb a 70) ||
  (Qltb 79 a && Qltb a 80) || (Qltb 89 a && Qltb a 90).

(** The integer a score denotes when it is an [int] (a [bool] is
    one). *)
Definition z_of (v : pyval) : Z :=
  match int_value v with
  | Some z => z
  | None => 0%Z
  end.

Definition int_scores (d : dict pyval) : Prop :=
  forall subject v, In (subject, v) d -> exists z, int_value v = Some z.

Definition Zsum (l : list Z) : Z := fold_right Z.add 0%Z l.

(** A record of the data model: name and gender are text, the age is
    an integer of [0,150], the scores are numbers of [0,100]. *)
Definition plain_record (s : Student) : Prop :=
  (exists n, name s = PyStr n) /\
  (exists z, age s = PyInt z /\ (0 <= z <= 150)%Z) /\
  (exists g, gender s = PyStr g) /\
  valid_scores (scores s).

Definition plain_store (m : dict Student) : Prop :=
  forall sid s, In (sid, s) m -> plain_record s.

(** The name, age and gender an update supplies are of the data
    model. *)
Definition plain_fields (kwargs : dict pyval) : Prop :=
  (forall v, dict_get kwargs "name" = Some v -> exists n, v = PyStr n) /\
  (forall v, dict_get kwargs "age" = Some v ->
             exists z, v = PyInt z /\ (0 <= z <= 150)%Z) /\
  (forall v, dict_get kwargs "gender" = Some v -> exists g, v = PyStr g).

End Spec.

(* ================================================================== *)
(** ** Sample data *)

Module Sample.

Open Scope string_scope.

Definition t0 : datetime := mkDatetime 2024 2 29 13 5 9 120.
Definition t1 : datetime := mkDatetime 987 12 31 23 59 59 0.

Definition writable_empty : file := mkFile Missing true.

Definition student_with (sid : string) (t : datetime)
           (sc : list (string * pyval)) : Student :=
  add_scores (Student_init sid (PyStr "Ann") (PyInt 20) (PyStr "F") t) sc.

Definition ann : Student :=
  student_with "s1" t0 [("math", PyInt 95); ("art", PyFloat (Finite (1 # 2)))].

Definition bob : Student := student_with "s2" t1 [].

Definition class_of (l : list Student) : StudentManager :=
  fold_left (fun m s => fst (add_student m s)) l (mkManager writable_empty []).

Definition two_students : StudentManager := class_of [ann; bob].

(** Three records whose averages are 95, 55 and 72. *)
Definition three_students : StudentManager :=
  class_of [ student_with "a" t0 [("math", PyInt 95)];
             student_with "b" t0 [("math", PyInt 50); ("art", PyInt 60)];
             student_with "c" t0 [("math", PyFloat (Finite 72))] ].

(** A document whose one record has a score of 150. *)
Definition out_of_range_document : pyval :=
  PyDict [("students",
           PyDict [("s1",
                    PyDict [("student_id", PyStr "s1");
                            ("name", PyStr "Ann");
                            ("age", PyInt 20);
                            ("gender", PyStr "F");
                            ("scores", PyDict [("math", PyInt 150)]);
                            ("create_time", PyStr "2024-02-29T13:05:09")])])].

(** The record that document describes. *)
Definition out_of_range_record : Student :=
  mkStudent "s1" (PyStr "Ann") (PyInt 20) (PyStr "F") [("math", PyInt 150)]
            (mkDatetime 2024 2 29 13 5 9 0).

Definition over_out_of_range_file : StudentManager :=
  mkManager (mkFile (Document out_of_range_document) true) [].

(** A document whose second record has no [create_time]. *)
Definition broken_document : pyval :=
  PyDict [("students",
           PyDict [("s1", to_dict ann);
                   ("s9",
                    PyDict [("student_id", PyStr "s9");
                            ("name", PyStr "Eve");
                            ("age", PyInt 21);
                            ("gender", PyStr "F")])])].

Definition over_broken_file : StudentManager :=
  mkManager (mkFile (Document broken_document) true) (students two_students).

(** Scores none of which [add_score] accepts. *)
Definition rejected_scores : dict pyval :=
  [("math", PyInt 150); ("art", PyStr "A"); ("pe", PyFloat (Finite (-1 # 2)));
   ("music", PyNone)].

(** A partial update: a new name, one new and one replaced score. *)
Definition patch : dict pyval :=
  [("name", PyStr "Anna");
   ("scores", PyDict [("art", PyInt 70); ("pe", PyInt 60)])].

(** One record whose average, 89.5, lies between two bands. *)
Definition gap_class : StudentManager :=
  class_of [student_with "g" t0 [("math", PyInt 89); ("art", PyInt 90)]].

(** The two students over a file that cannot be written. *)
Definition read_only_class : StudentManager :=
  mkManager (mkFile Missing false) (students two_students).

Definition unparsable_file : file := mkFile (Unreadable JSONDecodeError) true.

(** A document that files the record of id [s1] under the key [a]. *)
Definition misfiled_document : pyval :=
  PyDict [("students", PyDict [("a", to_dict ann)])].

Definition over_misfiled_file : StudentManager :=
  mkManager (mkFile (Document misfiled_document) true) [].

(** One record whose one score, 89.5, lies between two bands. *)
Definition gap_single_class : StudentManager :=
  class_of [student_with "g" t0 [("math", PyFloat (Finite (179 # 2)))]].

End Sample.

(** Case analysis on every comparison of rationals in the goal; the
    cases that contradict the hypotheses are closed. *)
Ltac split_comparisons :=
  repeat match goal with
         | |- context [Qle_bool ?x ?y] =>
             let E := fresh "E" in
             let Hle := fresh "Hle" in
             destruct (Qle_bool x y) eqn:E;
             [ apply Qle_bool_iff in E
             | assert (y < x)
                 by (apply Qnot_le_lt; intros Hle;
                     apply Qle_bool_iff in Hle; congruence);
               clear E ];
             try (exfalso; lra)
         end.

(* ================================================================== *)
(** * Properties *)

(** ** Dictionaries *)

Section DictFacts.
Variable V : Type.
Implicit Types (d : dict V) (k : string) (v : V).

Lemma dict_get_set_same d k v : dict_get (dict_set d k v) k = Some v.
Proof.
  induction d as [|[k' v'] d IH]; simpl.
  - now rewrite String.eqb_refl.
  - destruct (String.eqb k k') eqn:E; simpl; rewrite E; auto.
Qed.

Lemma dict_get_set_other d k k' v :
  k <> k' -> dict_get (dict_set d k v) k' = dict_get d k'.
Proof.
  intros Hne. induction d as [|[k0 v0] d IH]; simpl.
  - apply String.eqb_neq in Hne. now rewrite String.eqb_sym, Hne.
  - destruct (String.eqb k k0) eqn:E; simpl.
    + apply String.eqb_eq in E. subst k0.
      apply String.eqb_neq in Hne. now rewrite String.eqb_sym, Hne.
    + now rewrite IH.
Qed.

Lemma dict_get_del_same d k : dict_get (dict_del d k) k = None.
Proof.
  induction d as [|[k' v'] d IH]; simpl; auto.
  destruct (String.eqb k k') eqn:E; simpl; auto. now rewrite E.
Qed.

Lemma dict_get_del_other d k k' :
  k <> k' -> dict_get (dict_del d k) k' = dict_get d k'.
Proof.
  intros Hne. induction d as [|[k0 v0] d IH]; simpl; auto.
  destruct (String.eqb k k0) eqn:E; simpl.
  - apply String.eqb_eq in E. subst k0.
    apply String.eqb_neq in Hne. now rewrite String.eqb_sym, Hne.
  - now rewrite IH.
Qed.

(** Storing under a key the value it already has changes nothing. *)
Lemma dict_set_same_value d k v : dict_get d k = Some v -> dict_set d k v = d.
Proof.
  induction d as [|[k' v'] d IH]; simpl; try discriminate.
  destruct (String.eqb k k') eqn:E; intros H.
  - now inversion H.
  - now rewrite IH.
Qed.

Lemma dict_get_None_notin d k :
  dict_get d k = None <-> ~ In k (dict_keys d).
Proof.
  induction d as [|[k' v'] d IH]; simpl.
  - tauto.
  - destruct (String.eqb_spec k k') as [->|Hne].
    + split; [discriminate | intros H; exfalso; apply H; now left].
    + rewrite IH. split; intros H; [intros [H1|H1]; [congruence | tauto] | tauto].
Qed.

Lemma dict_get_In d k v :
  NoDup (dict_keys d) -> In (k, v) d -> dict_get d k = Some v.
Proof.
  induction d as [|[k' v'] d IH]; simpl; intros Hnd Hin; [contradiction|].
  inversion Hnd as [|? ? Hnotin Hnd']; subst.
  destruct Hin as [Heq|Hin].
  - inversion Heq; subst. now rewrite String.eqb_refl.
  - destruct (String.eqb_spec k k') as [->|Hne]; [|auto].
    exfalso. apply Hnotin. unfold dict_keys. change k' with (fst (k', v)).
    now apply in_map.
Qed.

Lemma dict_get_Some_In d k v : dict_get d k = Some v -> In (k, v) d.
Proof.
  induction d as [|[k' v'] d IH]; simpl; [discriminate|].
  destruct (String.eqb_spec k k') as [->|Hne]; intros H.
  - inversion H. now left.
  - right. auto.
Qed.

(** A key that is not there yet is appended. *)
Lemma dict_set_fresh d k v :
  ~ In k (dict_keys d) -> dict_set d k v = d ++ [(k, v)].
Proof.
  induction d as [|[k' v'] d IH]; simpl; intros Hn; auto.
  destruct (String.eqb_spec k k') as [->|Hne]; [tauto|].
  rewrite IH; tauto.
Qed.

End DictFacts.

(** A comprehension whose body never raises, over items with distinct
    keys that the accumulator does not have, appends them in order. *)
Lemma dict_comprehension_from_map {A B V : Type} (f : A -> result V)
      (h : B -> A) (g : B -> V) (items : list (string * B)) (acc : dict V) :
  (forall k b, In (k, b) items -> f (h b) = Ok (g b)) ->
  NoDup (dict_keys acc ++ dict_keys items) ->
  dict_comprehension_from f (map (fun '(k, b) => (k, h b)) items) acc
  = Ok (acc ++ map (fun '(k, b) => (k, g b)) items).
Proof.
  revert acc. induction items as [|[k b] items IH]; simpl; intros acc Hf Hnd.
  - now rewrite app_nil_r.
  - rewrite (Hf k b) by now left. simpl.
    assert (Hk : ~ In k (dict_keys acc)).
    { intros Hin. apply NoDup_remove_2 in Hnd. apply Hnd.
      apply in_or_app. now left. }
    rewrite dict_set_fresh by exact Hk.
    rewrite IH.
    + now rewrite <- app_assoc.
    + intros k' b' Hin. apply (Hf k'). now right.
    + unfold dict_keys in *. rewrite map_app. simpl. rewrite <- app_assoc. exact Hnd.
Qed.

Lemma map_pair_id {B : Type} (items : list (string * B)) :
  map (fun '(k, b) => (k, b)) items = items.
Proof.
  induction items as [|[k b] items IH]; simpl; congruence.
Qed.

Lemma dict_comprehension_map {A B V : Type} (f : A -> result V)
      (h : B -> A) (g : B -> V) (items : list (string * B)) :
  (forall k b, In (k, b) items -> f (h b) = Ok (g b)) ->
  NoDup (dict_keys items) ->
  dict_comprehension f (map (fun '(k, b) => (k, h b)) items)
  = Ok (map (fun '(k, b) => (k, g b)) items).
Proof.
  intros Hf Hnd. unfold dict_comprehension.
  now rewrite (dict_comprehension_from_map f h g items []).
Qed.

(** ** Timestamps *)

Lemma digit_value_digit_char (d : Z) :
  (0 <= d < 10)%Z -> digit_value (digit_char d) = Some d.
Proof.
  intros Hd.
  assert (H : (d = 0 \/ d = 1 \/ d = 2 \/ d = 3 \/ d = 4 \/
               d = 5 \/ d = 6 \/ d = 7 \/ d = 8 \/ d = 9)%Z) by lia.
  repeat (destruct H as [->|H]; [reflexivity|]). now subst.
Qed.

Lemma take_digits_zero_padded (w : nat) (n acc : Z) (rest : list ascii) :
  (0 <= n)%Z ->
  take_digits w acc (zero_padded w n ++ rest)
  = Some (acc * 10 ^ Z.of_nat w + n mod 10 ^ Z.of_nat w, rest)%Z.
Proof.
  intros Hn. revert acc. induction w as [|w IH]; intros acc.
  - simpl. rewrite Z.mod_1_r. f_equal. f_equal. lia.
  - cbn [zero_padded take_digits app].
    rewrite digit_value_digit_char by (apply Z.mod_pos_bound; lia).
    rewrite IH. f_equal. f_equal.
    rewrite Nat2Z.inj_succ, Z.pow_succ_r by lia.
    assert (Hp : (0 < 10 ^ Z.of_nat w)%Z) by (apply Z.pow_pos_nonneg; lia).
    rewrite (Z.mul_comm 10 (10 ^ Z.of_nat w)).
    rewrite Z.rem_mul_r by lia. ring.
Qed.

Lemma take_digits_zero_padded_exact (w : nat) (n : Z) (rest : list ascii) :
  (0 <= n < 10 ^ Z.of_nat w)%Z ->
  take_digits w 0 (zero_padded w n ++ rest) = Some (n, rest).
Proof.
  intros Hn. rewrite take_digits_zero_padded by lia.
  rewrite Z.mod_small by lia. reflexivity.
Qed.

Lemma between_true (lo x hi : Z) :
  between lo x hi = true -> (lo <= x <= hi)%Z.
Proof. unfold between. rewrite andb_true_iff, !Z.leb_le. tauto. Qed.

Lemma days_in_month_bound (y m : Z) : (days_in_month y m <= 31)%Z.
Proof.
  unfold days_in_month.
  repeat match goal with |- context [if ?b then _ else _] => destruct b end; lia.
Qed.

(** Parsing the text of a valid timestamp gives the timestamp back. *)
Lemma fromisoformat_isoformat (t : datetime) :
  valid t = true -> fromisoformat (isoformat t) = Ok t.
Proof.
  intros Hv. unfold fromisoformat, isoformat.
  rewrite list_ascii_of_string_of_list_ascii.
  pose proof Hv as Hv'. unfold valid in Hv'.
  repeat rewrite andb_true_iff in Hv'.
  destruct Hv' as [[[[[[Hy Hm] Hd] Hh] Hmi] Hs] Hus].
  apply between_true in Hy, Hm, Hd, Hh, Hmi, Hs, Hus.
  pose proof (days_in_month_bound (year t) (month t)) as Hdm.
  assert (parse_fields
            (zero_padded 4 (year t) ++ "-"%char ::
             zero_padded 2 (month t) ++ "-"%char ::
             zero_padded 2 (day t) ++ "T"%char ::
             zero_padded 2 (hour t) ++ ":"%char ::
             zero_padded 2 (minute t) ++ ":"%char ::
             zero_padded 2 (second t) ++
             (if (microsecond t =? 0)%Z then []
              else "."%char :: zero_padded 6 (microsecond t))) = Some t) as ->.
  { unfold parse_fields.
    rewrite take_digits_zero_padded_exact by (simpl; lia). cbn [obind take_char Ascii.eqb Bool.eqb].
    rewrite take_digits_zero_padded_exact by (simpl; lia). cbn [obind take_char Ascii.eqb Bool.eqb].
    rewrite take_digits_zero_padded_exact by (simpl; lia). cbn [obind take_any].
    rewrite take_digits_zero_padded_exact by (simpl; lia). cbn [obind take_char Ascii.eqb Bool.eqb].
    rewrite take_digits_zero_padded_exact by (simpl; lia). cbn [obind take_char Ascii.eqb Bool.eqb].
    rewrite take_digits_zero_padded_exact by (simpl; lia). cbn [obind].
    destruct (Z.eqb_spec (microsecond t) 0) as [E|E].
    - destruct t; simpl in *; now subst.
    - cbn [obind take_char Ascii.eqb Bool.eqb].
      rewrite <- (app_nil_r (zero_padded 6 (microsecond t))).
      rewrite take_digits_zero_padded_exact by (simpl; lia).
      now destruct t. }
  now rewrite Hv.
Qed.

(** ** Serialization *)

Lemma from_dict_to_dict (s : Student) :
  Datetime.valid (create_time s) = true -> from_dict (to_dict s) = Ok s.
Proof.
  intros Hv. unfold from_dict, to_dict.
  cbn -[isoformat fromisoformat].
  rewrite fromisoformat_isoformat by exact Hv.
  now destruct s.
Qed.

(** The document of a store: one object per record under its key. *)
Lemma document_of_students (m : dict Student) :
  NoDup (dict_keys m) ->
  document_of m
  = Ok (PyDict [("students"%string,
                 PyDict (map (fun '(sid, s) => (sid, to_dict s)) m))]).
Proof.
  intros Hnd. unfold document_of, dict_items.
  rewrite <- (map_pair_id m) at 1.
  rewrite (dict_comprehension_map (fun s => Ok (to_dict s)) (fun s => s) to_dict);
    auto.
Qed.

Lemma students_of_document (m : dict Student) :
  NoDup (dict_keys m) ->
  Spec.valid_timestamps m ->
  students_of (PyDict [("students"%string,
                        PyDict (map (fun '(sid, s) => (sid, to_dict s)) m))])
  = Ok m.
Proof.
  intros Hnd Hv. unfold students_of. cbn [py_get dict_get String.eqb Ascii.eqb Bool.eqb bind py_items].
  unfold dict_items.
  rewrite (dict_comprehension_map from_dict to_dict (fun s => s)); auto.
  - now rewrite map_pair_id.
  - intros k s Hin. apply from_dict_to_dict. exact (Hv k s Hin).
Qed.

(** C1.  Serializing a record and deserializing the result gives the
    record back, whenever its creation timestamp is one [datetime]
    accepts.  And for a store whose keys are distinct (it is a
    dictionary) and whose timestamps are valid, over a file that can be
    written: [save_data] succeeds, and [load_data] on the file it wrote
    succeeds in any manager and leaves it with exactly the records that
    were saved, so a manager constructed on that file holds them. *)
Theorem C1_persistence_round_trip :
  (forall s : Student,
      Datetime.valid (create_time s) = true -> from_dict (to_dict s) = Ok s) /\
  (forall self : StudentManager,
      NoDup (dict_keys (students self)) ->
      Spec.valid_timestamps (students self) ->
      writable (data_file self) = true ->
      let saved := data_file (fst (save_data self)) in
      snd (save_data self) = true /\
      (forall other : dict Student,
          load_data (mkManager saved other)
          = (mkManager saved (students self), true)) /\
      students (StudentManager_init saved) = students self).
Proof.
  split; [exact from_dict_to_dict|].
  intros self Hnd Hv Hw.
  assert (Hload : forall other,
             load_data (mkManager (data_file (fst (save_data self))) other)
             = (mkManager (data_file (fst (save_data self))) (students self), true)).
  { intros other. unfold save_data.
    rewrite document_of_students by exact Hnd. rewrite Hw.
    unfold load_data. cbn [fst write_document data_file content].
    rewrite students_of_document by assumption. reflexivity. }
  cbv zeta. split; [|split].
  - unfold save_data. rewrite document_of_students by exact Hnd. now rewrite Hw.
  - exact Hload.
  - unfold StudentManager_init. now rewrite Hload.
Qed.

Lemma C1_persistence_round_trip_witness :
  from_dict (to_dict Sample.ann) = Ok Sample.ann /\
  load_data (mkManager (data_file (fst (save_data Sample.two_students))) [])
  = (mkManager (data_file (fst (save_data Sample.two_students)))
               (students Sample.two_students), true).
Proof.
  split.
  - apply (proj1 C1_persistence_round_trip). reflexivity.
  - apply (proj2 C1_persistence_round_trip Sample.two_students).
    + vm_compute. repeat constructor; simpl; intuition discriminate.
    + intros sid s Hin. vm_compute in Hin.
      repeat (destruct Hin as [Hin|Hin]; [inversion Hin; reflexivity|]).
      contradiction.
    + reflexivity.
Defined.

(** ** Numbers *)

Lemma Qltb_true (x y : Q) : Qltb x y = true <-> x < y.
Proof.
  unfold Qltb. rewrite negb_true_iff.
  split; intros H.
  - apply Qnot_le_lt. intros Hle. apply Qle_bool_iff in Hle. congruence.
  - destruct (Qle_bool y x) eqn:E; auto.
    apply Qle_bool_iff in E. exfalso. exact (Qlt_not_le _ _ H E).
Qed.

Lemma Qltb_false (x y : Q) : Qltb x y = false <-> y <= x.
Proof.
  unfold Qltb. rewrite negb_false_iff. apply Qle_bool_iff.
Qed.

Lemma float_value_is_number (v : pyval) (f : pyfloat) :
  float_value v = Some f -> is_number v = true.
Proof. destruct v; simpl; congruence. Qed.

Lemma is_number_float_value (v : pyval) :
  is_number v = true -> exists f, float_value v = Some f.
Proof. destruct v; simpl; try discriminate; eauto. Qed.

Lemma py_lt_zero (v : pyval) (q : Q) :
  float_value v = Some (Finite q) -> py_lt v (PyInt 0) = Qltb q 0.
Proof. intros H. unfold py_lt. now rewrite H. Qed.

Lemma py_gt_hundred (v : pyval) (q : Q) :
  float_value v = Some (Finite q) -> py_gt v (PyInt 100) = Qltb 100 q.
Proof. intros H. unfold py_gt, py_lt. now rewrite H. Qed.

(** ** [Student.add_score] *)

(** The guard of [add_score] lets the values of the interval through. *)
Lemma add_score_accepts (self : Student) (subject : string) (v : pyval) :
  Spec.in_range v ->
  add_score self subject v
  = (set_scores self (dict_set (scores self) subject v), true).
Proof.
  intros (q & Hq & H0 & H100). unfold add_score.
  rewrite (float_value_is_number _ Hq), (py_lt_zero _ Hq), (py_gt_hundred _ Hq).
  apply Qltb_false in H0, H100. now rewrite H0, H100.
Qed.

(** It stops what is not a number, and the numbers below 0 or above
    100. *)
Lemma add_score_rejects (self : Student) (subject : string) (v : pyval) :
  Spec.invalid_score v -> add_score self subject v = (self, false).
Proof.
  intros [Hn|Ho]; unfold add_score.
  - unfold Spec.numeric in Hn. destruct (is_number v); [congruence|reflexivity].
  - unfold Spec.outside_range in Ho.
    destruct (float_value v) as [f|] eqn:Hf; [|contradiction].
    rewrite (float_value_is_number _ Hf).
    destruct f as [q| | |]; try contradiction.
    + rewrite (py_lt_zero _ Hf), (py_gt_hundred _ Hf).
      destruct Ho as [Ho|Ho]; apply Qltb_true in Ho; rewrite Ho;
        [reflexivity | now rewrite Bool.orb_true_r].
    + unfold py_gt, py_lt. rewrite Hf. reflexivity.
    + unfold py_gt, py_lt. rewrite Hf. reflexivity.
Qed.

(** What [add_score] does on every value but [nan].  A numeric value
    of [0,100] is accepted: [add_score] returns [True], the subject
    then reads as exactly that value, and no other subject or field of
    the record changes.  A value that is not numeric, or is below 0 or
    above 100, is refused: [add_score] returns [False] (it is a total
    function, nothing is raised) and the record, its scores included,
    is the one before the call. *)
Theorem add_score_contract (self : Student) (subject : string) (v : pyval) :
  (Spec.in_range v ->
   snd (add_score self subject v) = true /\
   dict_get (scores (fst (add_score self subject v))) subject = Some v /\
   (forall other, other <> subject ->
      dict_get (scores (fst (add_score self subject v))) other
      = dict_get (scores self) other) /\
   fst (add_score self subject v)
   = set_scores self (scores (fst (add_score self subject v)))) /\
  (Spec.invalid_score v ->
   snd (add_score self subject v) = false /\
   fst (add_score self subject v) = self).
Proof.
  split.
  - intros Hin. rewrite (add_score_accepts self subject Hin). simpl.
    repeat split.
    + apply dict_get_set_same.
    + intros other Hne. apply dict_get_set_other. congruence.
  - intros Hinv. rewrite (add_score_rejects self subject Hinv). auto.
Qed.

Lemma add_score_contract_witness :
  dict_get (scores (fst (add_score Sample.ann "math" (PyFloat (Finite (77 # 2))))))
           "math" = Some (PyFloat (Finite (77 # 2))) /\
  fst (add_score Sample.ann "math" (PyInt 101)) = Sample.ann /\
  fst (add_score Sample.ann "math" (PyStr "A")) = Sample.ann.
Proof.
  split; [|split].
  - apply (proj1 (add_score_contract Sample.ann "math" (PyFloat (Finite (77 # 2))))).
    exists (77 # 2). split; [reflexivity|]. split; unfold Qle; simpl; lia.
  - apply (proj2 (add_score_contract Sample.ann "math" (PyInt 101))).
    right. simpl. right. unfold Qlt; simpl; lia.
  - apply (proj2 (add_score_contract Sample.ann "math" (PyStr "A"))).
    left. unfold Spec.numeric. simpl. discriminate.
Defined.

(** [nan] is a [float] that is neither below 0 nor above 100: the guard
    lets it through. *)
Remark add_score_nan (self : Student) (subject : string) :
  add_score self subject (PyFloat NaN)
  = (set_scores self (dict_set (scores self) subject (PyFloat NaN)), true).
Proof. reflexivity. Qed.

(** C5.  [add_score] does not refuse every value that is not a number
    of [0,100]: [nan] is a [float], so it is numeric; it is not in
    [0,100]; and yet, for every record and subject, [add_score] returns
    [True] for it and the subject then reads as [nan]. *)
Theorem C5_add_score_stores_nan (self : Student) (subject : string) :
  Spec.numeric (PyFloat NaN) /\
  ~ Spec.in_range (PyFloat NaN) /\
  snd (add_score self subject (PyFloat NaN)) = true /\
  dict_get (scores (fst (add_score self subject (PyFloat NaN)))) subject
  = Some (PyFloat NaN).
Proof.
  split; [reflexivity|]. split.
  - intros (q & Hq & _). discriminate.
  - rewrite add_score_nan. cbn [fst snd scores set_scores].
    split; [reflexivity | apply dict_get_set_same].
Qed.

(** ** [StudentManager]: add, delete, find *)

(** [save_data] touches the file only. *)
Lemma students_save_data (self : StudentManager) :
  students (fst (save_data self)) = students self.
Proof.
  unfold save_data.
  destruct (document_of (students self)); [|reflexivity].
  now destruct (writable (data_file self)).
Qed.

Lemma find_student_save_data (self : StudentManager) (sid : string) :
  find_student (fst (save_data self)) sid = find_student self sid.
Proof. unfold find_student. now rewrite students_save_data. Qed.

Lemma dict_contains_get {V : Type} (d : dict V) (k : string) :
  dict_contains d k = match dict_get d k with Some _ => true | None => false end.
Proof. reflexivity. Qed.

(** C6.  [add_student] is a total function to a state and a boolean:
    nothing is raised.  When the id of the record is already a key, it
    returns [False] and the manager, the stored record included, is as
    before.  When the id is new it returns [True], [find_student] on
    that id then returns the record that was added, and every other id
    is found as before. *)
Theorem C6_add_student (self : StudentManager) (student : Student) :
  (forall old : Student,
      find_student self (student_id student) = Some old ->
      add_student self student = (self, false) /\
      find_student (fst (add_student self student)) (student_id student)
      = Some old) /\
  (find_student self (student_id student) = None ->
   snd (add_student self student) = true /\
   find_student (fst (add_student self student)) (student_id student)
   = Some student /\
   forall sid, sid <> student_id student ->
     find_student (fst (add_student self student)) sid = find_student self sid).
Proof.
  unfold find_student, add_student. rewrite dict_contains_get. split.
  - intros old Hold. rewrite Hold. auto.
  - intros Hnone. rewrite Hnone. cbn [fst snd].
    rewrite students_save_data. cbn [students set_students].
    repeat split.
    + apply dict_get_set_same.
    + intros sid Hne. apply dict_get_set_other. congruence.
Qed.

Lemma C6_add_student_witness :
  add_student Sample.two_students Sample.ann = (Sample.two_students, false) /\
  find_student (fst (add_student (Sample.class_of [Sample.bob]) Sample.ann)) "s1"
  = Some Sample.ann.
Proof.
  split.
  - apply (proj1 (C6_add_student Sample.two_students Sample.ann) Sample.ann).
    reflexivity.
  - apply (proj2 (C6_add_student (Sample.class_of [Sample.bob]) Sample.ann)).
    reflexivity.
Defined.

(** C7.  [delete_student] is total.  On an id that is not a key it
    returns [False] and the manager is as before.  On an id that is a
    key it returns [True], [find_student] on that id then returns
    [None], and every other id is found as before. *)
Theorem C7_delete_student (self : StudentManager) (sid : string) :
  (find_student self sid = None ->
   delete_student self sid = (self, false)) /\
  (forall old : Student,
      find_student self sid = Some old ->
      snd (delete_student self sid) = true /\
      find_student (fst (delete_student self sid)) sid = None /\
      forall other, other <> sid ->
        find_student (fst (delete_student self sid)) other
        = find_student self other).
Proof.
  unfold find_student, delete_student. rewrite dict_contains_get. split.
  - intros Hnone. now rewrite Hnone.
  - intros old Hold. rewrite Hold. cbn [negb fst snd].
    rewrite students_save_data. cbn [students set_students].
    repeat split.
    + apply dict_get_del_same.
    + intros other Hne. apply dict_get_del_other. congruence.
Qed.

Lemma C7_delete_student_witness :
  delete_student Sample.two_students "s7" = (Sample.two_students, false) /\
  find_student (fst (delete_student Sample.two_students "s1")) "s1" = None /\
  find_student (fst (delete_student Sample.two_students "s1")) "s2"
  = Some Sample.bob.
Proof.
  split; [|split].
  - apply (proj1 (C7_delete_student Sample.two_students "s7")). reflexivity.
  - apply (proj2 (C7_delete_student Sample.two_students "s1") Sample.ann).
    reflexivity.
  - rewrite (proj2 (proj2 (proj2 (C7_delete_student Sample.two_students "s1")
                                  Sample.ann eq_refl)) "s2"%string).
    + reflexivity.
    + discriminate.
Defined.

(** ** [StudentManager.load_data] *)

(** One record that does not deserialize makes the whole comprehension
    raise, wherever it stands. *)
Lemma dict_comprehension_from_raise {A V : Type} (f : A -> result V)
      (items : list (string * A)) (acc : dict V) (k : string) (a : A) (e : exn) :
  In (k, a) items -> f a = Raise e ->
  exists e', dict_comprehension_from f items acc = Raise e'.
Proof.
  revert acc. induction items as [|[k0 a0] items IH]; simpl; intros acc Hin Hf.
  - contradiction.
  - destruct (f a0) as [v|e0] eqn:E; simpl.
    + destruct Hin as [Heq|Hin].
      * inversion Heq; subst. congruence.
      * now apply IH.
    + now exists e0.
Qed.

(** C8.  [load_data] is a total function to a state and a boolean:
    nothing is raised.  Whenever it returns [False] the manager, its
    records included, is exactly the one before the call.  It returns
    [False] when the file cannot be read or parsed, when extracting the
    records of the document raises, and when any one record of the
    document raises in [from_dict], whatever the records before it. *)
Theorem C8_failed_load (self : StudentManager) :
  (snd (load_data self) = false -> fst (load_data self) = self) /\
  (forall e, content (data_file self) = Unreadable e ->
             load_data self = (self, false)) /\
  (forall doc e, content (data_file self) = Document doc ->
                 students_of doc = Raise e -> e <> IllTyped ->
                 load_data self = (self, false)) /\
  (forall doc recs sid rec e,
      content (data_file self) = Document doc ->
      py_get doc "students" (PyDict []) = Ok (PyDict recs) ->
      In (sid, rec) recs ->
      from_dict rec = Raise e -> e <> IllTyped ->
      load_data self = (self, false)).
Proof.
  unfold load_data. repeat split.
  - destruct (content (data_file self)) as [|e|doc]; simpl; try congruence.
    destruct (students_of doc); simpl; congruence.
  - intros e He. now rewrite He.
  - intros doc e Hd He _. now rewrite Hd, He.
  - intros doc recs sid rec e Hd Hget Hin Hraise _. rewrite Hd.
    unfold students_of. rewrite Hget. cbn [bind py_items].
    unfold dict_comprehension, dict_items.
    destruct (dict_comprehension_from_raise from_dict recs [] sid rec Hin Hraise)
      as [e' ->].
    reflexivity.
Qed.

Lemma C8_failed_load_witness :
  load_data Sample.over_broken_file = (Sample.over_broken_file, false).
Proof.
  apply (proj2 (proj2 (proj2 (C8_failed_load Sample.over_broken_file)))
           Sample.broken_document
           [("s1"%string, to_dict Sample.ann);
            ("s9"%string,
             PyDict [("student_id"%string, PyStr "s9");
                     ("name"%string, PyStr "Eve");
                     ("age"%string, PyInt 21);
                     ("gender"%string, PyStr "F")])]
           "s9"%string
           (PyDict [("student_id"%string, PyStr "s9");
                    ("name"%string, PyStr "Eve");
                    ("age"%string, PyInt 21);
                    ("gender"%string, PyStr "F")])
           (KeyError "create_time")).
  - reflexivity.
  - reflexivity.
  - simpl. right. left. reflexivity.
  - reflexivity.
  - discriminate.
Defined.

(** ** [StudentManager.update_student] *)

Lemma add_score_fields (self : Student) (subject : string) (v : pyval) :
  fst (add_score self subject v)
  = set_scores self (scores (fst (add_score self subject v))).
Proof.
  unfold add_score.
  destruct (negb (is_number v) || py_lt v (PyInt 0) || py_gt v (PyInt 100));
    now destruct self.
Qed.

Lemma add_score_get_other (self : Student) (subject other : string) (v : pyval) :
  other <> subject ->
  dict_get (scores (fst (add_score self subject v))) other
  = dict_get (scores self) other.
Proof.
  intros Hne. unfold add_score.
  destruct (negb (is_number v) || py_lt v (PyInt 0) || py_gt v (PyInt 100));
    simpl; auto.
  apply dict_get_set_other. congruence.
Qed.

(** The loop over the supplied scores changes the scores only. *)
Lemma add_scores_fields (items : list (string * pyval)) (self : Student) :
  add_scores self items = set_scores self (scores (add_scores self items)).
Proof.
  revert self. induction items as [|[k v] items IH]; intros self; simpl.
  - now destruct self.
  - rewrite IH at 1. rewrite (add_score_fields self k v) at 1. reflexivity.
Qed.

(** The scores it leaves depend on the scores it starts from only. *)
Lemma add_scores_scores (items : list (string * pyval)) (s s' : Student) :
  scores s = scores s' ->
  scores (add_scores s items) = scores (add_scores s' items).
Proof.
  revert s s'. induction items as [|[k v] items IH]; intros s s' H; simpl; auto.
  apply IH. unfold add_score. rewrite H.
  now destruct (negb (is_number v) || py_lt v (PyInt 0) || py_gt v (PyInt 100)).
Qed.

(** A subject the update does not mention keeps its value. *)
Lemma add_scores_not_mentioned (items : list (string * pyval)) (self : Student)
      (subject : string) :
  dict_get items subject = None ->
  dict_get (scores (add_scores self items)) subject
  = dict_get (scores self) subject.
Proof.
  revert self. induction items as [|[k v] items IH]; intros self; simpl; auto.
  destruct (String.eqb_spec subject k) as [->|Hne]; [discriminate|].
  intros Hnone. rewrite IH by exact Hnone.
  now apply add_score_get_other.
Qed.

(** A subject mentioned with a value of the interval takes that value. *)
Lemma add_scores_mentioned_valid (items : list (string * pyval)) (self : Student)
      (subject : string) (v : pyval) :
  NoDup (dict_keys items) -> dict_get items subject = Some v ->
  Spec.in_range v ->
  dict_get (scores (add_scores self items)) subject = Some v.
Proof.
  revert self. induction items as [|[k v0] items IH]; intros self Hnd; simpl;
    [discriminate|].
  inversion Hnd as [|? ? Hnotin Hnd']; subst.
  destruct (String.eqb_spec subject k) as [->|Hne]; intros Hget Hin.
  - inversion Hget; subst v0.
    rewrite add_scores_not_mentioned by now apply dict_get_None_notin.
    rewrite (add_score_accepts self k Hin). simpl. apply dict_get_set_same.
  - now apply IH.
Qed.

(** A subject mentioned with a refused value keeps the value it had. *)
Lemma add_scores_mentioned_invalid (items : list (string * pyval)) (self : Student)
      (subject : string) (v : pyval) :
  NoDup (dict_keys items) -> dict_get items subject = Some v ->
  Spec.invalid_score v ->
  dict_get (scores (add_scores self items)) subject
  = dict_get (scores self) subject.
Proof.
  revert self. induction items as [|[k v0] items IH]; intros self Hnd; simpl;
    [discriminate|].
  inversion Hnd as [|? ? Hnotin Hnd']; subst.
  destruct (String.eqb_spec subject k) as [->|Hne]; intros Hget Hinv.
  - inversion Hget; subst v0.
    rewrite add_scores_not_mentioned by now apply dict_get_None_notin.
    now rewrite (add_score_rejects self k Hinv).
  - rewrite IH by assumption. now apply add_score_get_other.
Qed.

Lemma add_scores_all_invalid (items : list (string * pyval)) (self : Student) :
  (forall subject v, In (subject, v) items -> Spec.invalid_score v) ->
  add_scores self items = self.
Proof.
  induction items as [|[k v] items IH]; intros Hall; simpl; auto.
  rewrite (add_score_rejects self k (Hall k v (or_introl eq_refl))). simpl.
  apply IH. intros subject v' Hin. apply (Hall subject). now right.
Qed.

Lemma update_field_name (kwargs : dict pyval) (s : Student) :
  update_field kwargs "name" set_name s
  = set_name s (Spec.supplied kwargs "name" (name s)).
Proof.
  unfold update_field, Spec.supplied.
  destruct (dict_get kwargs "name"); now destruct s.
Qed.

Lemma update_field_age (kwargs : dict pyval) (s : Student) :
  update_field kwargs "age" set_age s
  = set_age s (Spec.supplied kwargs "age" (age s)).
Proof.
  unfold update_field, Spec.supplied.
  destruct (dict_get kwargs "age"); now destruct s.
Qed.

Lemma update_field_gender (kwargs : dict pyval) (s : Student) :
  update_field kwargs "gender" set_gender s
  = set_gender s (Spec.supplied kwargs "gender" (gender s)).
Proof.
  unfold update_field, Spec.supplied.
  destruct (dict_get kwargs "gender"); now destruct s.
Qed.

(** What [update_student] does to a stored record when the scores it is
    given, if any, are a mapping. *)
Lemma update_student_present (self : StudentManager) (sid : string)
      (kwargs d : dict pyval) (student : Student) :
  find_student self sid = Some student ->
  Spec.supplies_scores kwargs d ->
  let student' :=
    add_scores
      (mkStudent (student_id student)
                 (Spec.supplied kwargs "name" (name student))
                 (Spec.supplied kwargs "age" (age student))
                 (Spec.supplied kwargs "gender" (gender student))
                 (scores student) (create_time student)) d in
  update_student self sid kwargs
  = (fst (save_data (set_students self (dict_set (students self) sid student'))),
     Ok true).
Proof.
  intros Hfind Hsup. unfold find_student in Hfind. unfold update_student.
  rewrite Hfind, update_field_name, update_field_age, update_field_gender.
  destruct Hsup as [[-> ->]|[-> _]]; reflexivity.
Qed.

(** C3.  On an id that is not a key [update_student] returns [False]
    and the manager is as before.  On a stored id, with scores (if
    supplied) that are a mapping, it returns [True] and the stored
    record has: its id and creation time as before; each of name, age
    and gender equal to the supplied value, or as before when none is
    supplied; and the scores that result from calling [add_score] on
    the old scores for each supplied entry in turn, so that a subject
    the update does not mention keeps its value, a subject mentioned
    with a number of [0,100] reads as that number, and a subject
    mentioned with a value [add_score] refuses keeps the value it had.
    Every other record is as before. *)
Theorem C3_update_student (self : StudentManager) (sid : string)
        (kwargs d : dict pyval) :
  (find_student self sid = None ->
   update_student self sid kwargs = (self, Ok false)) /\
  (forall student : Student,
      find_student self sid = Some student ->
      Spec.supplies_scores kwargs d ->
      exists student' : Student,
        snd (update_student self sid kwargs) = Ok true /\
        find_student (fst (update_student self sid kwargs)) sid = Some student' /\
        scores student' = scores (add_scores student d) /\
        student_id student' = student_id student /\
        create_time student' = create_time student /\
        name student' = Spec.supplied kwargs "name" (name student) /\
        age student' = Spec.supplied kwargs "age" (age student) /\
        gender student' = Spec.supplied kwargs "gender" (gender student) /\
        (forall subject,
            dict_get d subject = None ->
            dict_get (scores student') subject
            = dict_get (scores student) subject) /\
        (forall subject v,
            dict_get d subject = Some v -> Spec.in_range v ->
            dict_get (scores student') subject = Some v) /\
        (forall subject v,
            dict_get d subject = Some v -> Spec.invalid_score v ->
            dict_get (scores student') subject
            = dict_get (scores student) subject) /\
        (forall other,
            other <> sid ->
            find_student (fst (update_student self sid kwargs)) other
            = find_student self other)).
Proof.
  split.
  - unfold find_student, update_student. now intros ->.
  - intros student Hfind Hsup.
    rewrite (update_student_present self sid Hfind Hsup). cbv zeta.
    set (patched := mkStudent _ _ _ _ _ _).
    assert (Hnd : NoDup (dict_keys d)).
    { destruct Hsup as [[_ ->]|[_ H]]; [constructor | exact H]. }
    exists (add_scores patched d). cbn [fst snd].
    rewrite (add_scores_fields d patched).
    repeat split.
    + unfold find_student. rewrite students_save_data.
      cbn [students set_students]. apply dict_get_set_same.
    + cbn [scores set_scores]. now apply add_scores_scores.
    + intros subject Hnone. cbn [scores set_scores].
      now rewrite add_scores_not_mentioned.
    + intros subject v Hget Hin. cbn [scores set_scores].
      now apply add_scores_mentioned_valid.
    + intros subject v Hget Hinv. cbn [scores set_scores].
      now rewrite (@add_scores_mentioned_invalid d patched subject v Hnd Hget Hinv).
    + intros other Hne. unfold find_student. rewrite students_save_data.
      cbn [students set_students]. apply dict_get_set_other. congruence.
Qed.

Lemma C3_update_student_witness :
  update_student Sample.two_students "s7" Sample.patch
  = (Sample.two_students, Ok false) /\
  exists student' : Student,
    find_student (fst (update_student Sample.two_students "s1" Sample.patch)) "s1"
    = Some student' /\
    name student' = PyStr "Anna" /\
    age student' = PyInt 20 /\
    dict_get (scores student') "math" = Some (PyInt 95) /\
    dict_get (scores student') "art" = Some (PyInt 70).
Proof.
  split.
  - apply (proj1 (C3_update_student Sample.two_students "s7" Sample.patch [])).
    reflexivity.
  - destruct (proj2 (C3_update_student Sample.two_students "s1" Sample.patch
                       [("art"%string, PyInt 70); ("pe"%string, PyInt 60)])
                    Sample.ann eq_refl) as (s' & _ & Hfind & _ & _ & _ & Hn & Ha & _ & Hkeep & Hset & _).
    + right. split; [reflexivity|].
      repeat constructor; simpl; intuition discriminate.
    + exists s'. split; [exact Hfind|]. split; [exact Hn|]. split; [exact Ha|].
      split.
      * rewrite (Hkeep "math"%string eq_refl). reflexivity.
      * apply (Hset "art"%string (PyInt 70) eq_refl).
        exists (inject_Z 70). split; [reflexivity|].
        split; unfold Qle; simpl; lia.
Defined.

(** The comprehension of [save_data] never raises. *)
Lemma dict_comprehension_from_ok {A V : Type} (g : A -> V)
      (items : list (string * A)) (acc : dict V) :
  exists out, dict_comprehension_from (fun a => Ok (g a)) items acc = Ok out.
Proof.
  revert acc. induction items as [|[k a] items IH]; intros acc; simpl; eauto.
Qed.

Lemma document_of_ok (m : dict Student) : exists doc, document_of m = Ok doc.
Proof.
  unfold document_of, dict_comprehension.
  destruct (dict_comprehension_from_ok to_dict (dict_items m) []) as [out ->].
  simpl. eauto.
Qed.

Lemma save_data_writable (self : StudentManager) :
  writable (data_file self) = true ->
  snd (save_data self) = true /\
  exists doc, document_of (students self) = Ok doc /\
              content (data_file (fst (save_data self))) = Document doc.
Proof.
  intros Hw. unfold save_data.
  destruct (document_of_ok (students self)) as [doc Hdoc].
  rewrite Hdoc, Hw. simpl. eauto.
Qed.

(** C9.  For a stored id and supplied scores none of which is a number
    of [0,100] (each is not numeric, or below 0, or above 100):
    [update_student] returns [True] and does what [save_data] does to
    the manager as it was, so the records are unchanged, no supplied
    entry is stored, and when the file can be written it holds the
    document of the unchanged records. *)
Theorem C9_update_invalid_scores (self : StudentManager) (sid : string)
        (student : Student) (d : dict pyval) :
  find_student self sid = Some student ->
  (forall subject v, In (subject, v) d -> Spec.invalid_score v) ->
  update_student self sid [("scores"%string, PyDict d)]
  = (fst (save_data self), Ok true) /\
  students (fst (update_student self sid [("scores"%string, PyDict d)]))
  = students self /\
  (writable (data_file self) = true ->
   exists doc,
     document_of (students self) = Ok doc /\
     content (data_file (fst (update_student self sid
                                [("scores"%string, PyDict d)])))
     = Document doc).
Proof.
  intros Hfind Hall.
  assert (Hupd : update_student self sid [("scores"%string, PyDict d)]
                 = (fst (save_data self), Ok true)).
  { unfold find_student in Hfind. unfold update_student. rewrite Hfind.
    cbn [update_field dict_get String.eqb Ascii.eqb Bool.eqb py_items].
    unfold dict_items.
    rewrite (add_scores_all_invalid d student Hall).
    rewrite (dict_set_same_value (students self) sid Hfind).
    now destruct self. }
  rewrite Hupd. cbn [fst]. split; [reflexivity|]. split.
  - apply students_save_data.
  - intros Hw. exact (proj2 (save_data_writable self Hw)).
Qed.

Lemma C9_update_invalid_scores_witness :
  update_student Sample.two_students "s1"
                 [("scores"%string, PyDict Sample.rejected_scores)]
  = (fst (save_data Sample.two_students), Ok true).
Proof.
  apply (@C9_update_invalid_scores Sample.two_students "s1" Sample.ann
           Sample.rejected_scores).
  - reflexivity.
  - intros subject v Hin. simpl in Hin.
    destruct Hin as [H|[H|[H|[H|[]]]]]; inversion H; subst; clear H.
    + right. simpl. right. unfold Qlt; simpl; lia.
    + left. unfold Spec.numeric. simpl. discriminate.
    + right. simpl. left. unfold Qlt; simpl; lia.
    + left. unfold Spec.numeric. simpl. discriminate.
Defined.

(** ** The range of stored scores *)

(** Deserialization takes the scores of the document as they are. *)
Lemma from_dict_keeps_scores (data : pyval) (s : Student) :
  from_dict data = Ok s ->
  py_get data "scores" (PyDict []) = Ok (PyDict (scores s)).
Proof.
  unfold from_dict. destruct data as [| | | | | |d]; try discriminate.
  cbn [py_getitem py_get].
  destruct (dict_get d "student_id") as [sid|]; [|discriminate].
  destruct (dict_get d "name") as [nm|]; [|discriminate].
  destruct (dict_get d "age") as [ag|]; [|discriminate].
  destruct (dict_get d "gender") as [gd|]; [|discriminate].
  cbn [bind]. destruct (as_str sid) as [sid'|]; [|discriminate]. cbn [bind].
  destruct (match dict_get d "scores" with Some x => Ok x | None => Ok (PyDict []) end)
    as [sc|] eqn:Esc; [|discriminate].
  cbn [bind]. destruct sc; try discriminate. cbn [as_dict bind].
  destruct (dict_get d "create_time") as [ct|]; [|discriminate]. cbn [bind].
  destruct (py_fromisoformat ct); [|discriminate]. cbn [bind].
  intros H. inversion H; subst. reflexivity.
Qed.

(** C4.  [load_data] keeps the scores of the document as they are: on
    a document whose record has a score of 150 it returns [True], and
    the store then holds that record with that score, which is not in
    [0,100]; the invariant on scores does not hold after the load. *)
Theorem C4_load_keeps_out_of_range_score :
  load_data Sample.over_out_of_range_file
  = (set_students Sample.over_out_of_range_file
                  [("s1"%string, Sample.out_of_range_record)], true) /\
  dict_get (scores Sample.out_of_range_record) "math" = Some (PyInt 150) /\
  ~ Spec.in_range (PyInt 150) /\
  ~ Spec.valid_store (students (fst (load_data Sample.over_out_of_range_file))).
Proof.
  assert (Hout : ~ Spec.in_range (PyInt 150)).
  { intros (q & Hq & _ & H100). simpl in Hq. inversion Hq; subst.
    unfold Qle in H100. simpl in H100. lia. }
  assert (Hload : load_data Sample.over_out_of_range_file
                  = (set_students Sample.over_out_of_range_file
                       [("s1"%string, Sample.out_of_range_record)], true))
    by reflexivity.
  split; [exact Hload|]. split; [reflexivity|]. split; [exact Hout|].
  rewrite Hload. intros Hvalid. apply Hout.
  apply (Hvalid "s1"%string Sample.out_of_range_record (or_introl eq_refl)
                "math"%string (PyInt 150)).
  now left.
Qed.

(** ** Sums and averages *)

Lemma finite_number_cases (v : pyval) :
  Spec.finite_number v ->
  (exists z, int_value v = Some z /\ float_value v = Some (Finite (inject_Z z)))
  \/ (exists q, v = PyFloat (Finite q)).
Proof.
  intros [q Hq]. destruct v; simpl in *; try discriminate.
  - left. eauto.
  - left. eauto.
  - right. inversion Hq. eauto.
Qed.

Lemma q_of_finite (v : pyval) (q : Q) :
  float_value v = Some (Finite q) -> Spec.q_of v = q.
Proof. intros H. unfold Spec.q_of. now rewrite H. Qed.

(** One step of [sum] on finite numbers adds the rationals. *)
Lemma num_add_finite (acc v : pyval) :
  Spec.finite_number acc -> Spec.finite_number v ->
  exists r, num_add acc v = Ok r /\ Spec.finite_number r /\
            Spec.q_of r == Spec.q_of acc + Spec.q_of v.
Proof.
  intros Ha Hv.
  destruct (finite_number_cases Ha) as [(x & Hx & Hfx)|(x & ->)];
    destruct (finite_number_cases Hv) as [(y & Hy & Hfy)|(y & ->)];
    unfold num_add.
  - rewrite Hx, Hy. eexists. split; [reflexivity|]. split.
    + eexists. reflexivity.
    + rewrite (q_of_finite _ Hfx), (q_of_finite _ Hfy).
      change (Spec.q_of (PyInt (x + y))) with (inject_Z (x + y)).
      now rewrite inject_Z_plus.
  - rewrite Hx, Hfx. cbn [int_value float_value].
    eexists. split; [reflexivity|]. split.
    + eexists. reflexivity.
    + rewrite (q_of_finite _ Hfx).
      change (Qred (inject_Z x + y) == inject_Z x + y). apply Qred_correct.
  - cbn [int_value float_value]. rewrite Hfy.
    eexists. split; [reflexivity|]. split.
    + eexists. reflexivity.
    + rewrite (q_of_finite _ Hfy).
      change (Qred (x + inject_Z y) == x + inject_Z y). apply Qred_correct.
  - cbn [int_value float_value].
    eexists. split; [reflexivity|]. split.
    + eexists. reflexivity.
    + change (Qred (x + y) == x + y). apply Qred_correct.
Qed.

Lemma sum_from_finite (l : list pyval) (acc : pyval) :
  Spec.finite_number acc -> Forall Spec.finite_number l ->
  exists r, sum_from acc l = Ok r /\ Spec.finite_number r /\
            Spec.q_of r == Spec.q_of acc + Spec.Qsum (map Spec.q_of l).
Proof.
  revert acc. induction l as [|v l IH]; intros acc Ha Hl; simpl.
  - exists acc. split; [reflexivity|]. split; [exact Ha|]. ring.
  - inversion Hl as [|? ? Hv Hl']; subst.
    destruct (num_add_finite Ha Hv) as (r1 & -> & Hr1 & Hq1). simpl.
    destruct (IH r1 Hr1 Hl') as (r & -> & Hr & Hq).
    exists r. split; [reflexivity|]. split; [exact Hr|].
    rewrite Hq, Hq1. ring.
Qed.

Lemma py_sum_finite (l : list pyval) :
  Forall Spec.finite_number l ->
  exists r, py_sum l = Ok r /\ Spec.finite_number r /\
            Spec.q_of r == Spec.Qsum (map Spec.q_of l).
Proof.
  intros Hl. unfold py_sum.
  destruct (@sum_from_finite l (PyInt 0)) as (r & Hr & Hf & Hq); auto.
  - eexists. reflexivity.
  - exists r. repeat split; auto. rewrite Hq. unfold Spec.q_of. simpl. ring.
Qed.

Lemma truediv_int_finite (r : pyval) (n : Z) :
  Spec.finite_number r -> n <> 0%Z ->
  truediv_int r n = Ok (Finite (Qred (Spec.q_of r / inject_Z n))).
Proof.
  intros [q Hq] Hn. unfold truediv_int. rewrite Hq, (q_of_finite _ Hq).
  apply Z.eqb_neq in Hn. now rewrite Hn.
Qed.

(** [get_average_score] computes the mean of the scores, in lowest
    terms. *)
Lemma get_average_score_finite (s : Student) :
  Forall Spec.finite_number (dict_values (scores s)) ->
  exists a, get_average_score s = Ok (Finite a) /\
            a == Spec.average_of s /\ Qred a = a.
Proof.
  intros Hfin. unfold get_average_score, Spec.average_of.
  destruct (scores s) as [|[k v] d] eqn:E.
  - exists 0. repeat split; reflexivity.
  - cbn [dict_is_empty].
    destruct (py_sum_finite Hfin) as (r & -> & Hr & Hq). cbn [bind].
    rewrite truediv_int_finite; auto.
    + eexists. split; [reflexivity|]. split.
      * rewrite Qred_correct. unfold Spec.mean.
        cbn [dict_values map]. cbn [dict_values map] in Hq. rewrite Hq.
        unfold len. cbn [List.length]. now rewrite !length_map.
      * apply Qred_complete, Qred_correct.
    + unfold len. simpl. lia.
Qed.

(** ** Maximum, minimum and counts of averages *)

Lemma max_from_finite (l : list Q) (m : Q) :
  exists m', max_from (Finite m) (map Finite l) = Finite m' /\
             In m' (m :: l) /\ forall x, In x (m :: l) -> x <= m'.
Proof.
  revert m. induction l as [|x l IH]; intros m; cbn [map max_from].
  - exists m. split; [reflexivity|]. split; [now left|].
    intros y [<-|[]]. apply Qle_refl.
  - unfold fgt. cbn [flt].
    destruct (Qltb m x) eqn:E.
    + apply Qltb_true in E.
      destruct (IH x) as (m' & -> & Hin & Hle).
      exists m'. split; [reflexivity|]. split; [now right|].
      intros y [<-|Hy]; [|now apply Hle].
      apply Qle_trans with x; [now apply Qlt_le_weak | apply Hle; now left].
    + apply Qltb_false in E.
      destruct (IH m) as (m' & -> & Hin & Hle).
      exists m'. split; [reflexivity|]. split.
      * destruct Hin as [<-|Hin]; [now left | now right; right].
      * intros y [<-|[<-|Hy]].
        -- apply Hle. now left.
        -- apply Qle_trans with m; [exact E | apply Hle; now left].
        -- apply Hle. now right.
Qed.

Lemma min_from_finite (l : list Q) (m : Q) :
  exists m', min_from (Finite m) (map Finite l) = Finite m' /\
             In m' (m :: l) /\ forall x, In x (m :: l) -> m' <= x.
Proof.
  revert m. induction l as [|x l IH]; intros m; cbn [map min_from].
  - exists m. split; [reflexivity|]. split; [now left|].
    intros y [<-|[]]. apply Qle_refl.
  - cbn [flt].
    destruct (Qltb x m) eqn:E.
    + apply Qltb_true in E.
      destruct (IH x) as (m' & -> & Hin & Hle).
      exists m'. split; [reflexivity|]. split; [now right|].
      intros y [<-|Hy]; [|now apply Hle].
      apply Qle_trans with x; [apply Hle; now left | now apply Qlt_le_weak].
    + apply Qltb_false in E.
      destruct (IH m) as (m' & -> & Hin & Hle).
      exists m'. split; [reflexivity|]. split.
      * destruct Hin as [<-|Hin]; [now left | now right; right].
      * intros y [<-|[<-|Hy]].
        -- apply Hle. now left.
        -- apply Qle_trans with m; [apply Hle; now left | exact E].
        -- apply Hle. now right.
Qed.

Lemma Forall2_Qeq_In_l (l l' : list Q) (x : Q) :
  Forall2 Qeq l l' -> In x l -> exists y, In y l' /\ x == y.
Proof.
  induction 1 as [|a b l l' Hab _ IH]; simpl; [contradiction|].
  intros [<-|Hin].
  - exists b. auto.
  - destruct (IH Hin) as (y & Hy & Hxy). exists y. auto.
Qed.

Lemma Forall2_Qeq_In_r (l l' : list Q) (y : Q) :
  Forall2 Qeq l l' -> In y l' -> exists x, In x l /\ x == y.
Proof.
  induction 1 as [|a b l l' Hab _ IH]; simpl; [contradiction|].
  intros [<-|Hin].
  - exists a. auto.
  - destruct (IH Hin) as (x & Hx & Hxy). exists x. auto.
Qed.

Lemma Forall2_Qeq_Qsum (l l' : list Q) :
  Forall2 Qeq l l' -> Spec.Qsum l == Spec.Qsum l'.
Proof.
  induction 1 as [|a b l l' Hab _ IH]; simpl; [reflexivity|].
  now rewrite Hab, IH.
Qed.

Lemma Forall2_Qeq_length (l l' : list Q) :
  Forall2 Qeq l l' -> List.length l = List.length l'.
Proof. induction 1; simpl; congruence. Qed.

Lemma is_maximum_Qeq (l l' : list Q) (m : Q) :
  Forall2 Qeq l l' -> In m l -> (forall x, In x l -> x <= m) ->
  Spec.is_maximum m l'.
Proof.
  intros H Hin Hle. split.
  - destruct (Forall2_Qeq_In_l m H Hin) as (y & Hy & Hmy).
    exists y. split; [exact Hy | now symmetry].
  - intros y Hy. destruct (Forall2_Qeq_In_r y H Hy) as (x & Hx & Hxy).
    rewrite <- Hxy. now apply Hle.
Qed.

Lemma is_minimum_Qeq (l l' : list Q) (m : Q) :
  Forall2 Qeq l l' -> In m l -> (forall x, In x l -> m <= x) ->
  Spec.is_minimum m l'.
Proof.
  intros H Hin Hle. split.
  - destruct (Forall2_Qeq_In_l m H Hin) as (y & Hy & Hmy).
    exists y. split; [exact Hy | now symmetry].
  - intros y Hy. destruct (Forall2_Qeq_In_r y H Hy) as (x & Hx & Hxy).
    rewrite <- Hxy. now apply Hle.
Qed.

Lemma count_Forall2 (p : pyfloat -> bool) (p' : Q -> bool) (l l' : list Q) :
  (forall a a', a == a' -> p (Finite a) = p' a') ->
  Forall2 Qeq l l' ->
  count p (map Finite l) = Spec.count_if p' l'.
Proof.
  intros Hp. unfold count, Spec.count_if.
  induction 1 as [|a b l l' Hab _ IH]; simpl; [reflexivity|].
  rewrite (Hp a b Hab). destruct (p' b); simpl; lia.
Qed.

Lemma excellent_computed (a a' : Q) :
  a == a' -> fge (Finite a) (float_of_Z 90) = Spec.excellent a'.
Proof.
  intros H. unfold fge, Spec.excellent. cbn [fle float_of_Z].
  now rewrite H.
Qed.

Lemma failing_computed (a a' : Q) :
  a == a' -> flt (Finite a) (float_of_Z 60) = Spec.failing a'.
Proof.
  intros H. unfold Spec.failing. cbn [flt float_of_Z]. unfold Qltb.
  now rewrite H.
Qed.

(** The comprehension over the records computes their averages. *)
Lemma averages_computed (m : dict Student) :
  Spec.finite_scores m ->
  exists avgs : list Q,
    list_comprehension get_average_score (dict_values m) = Ok (map Finite avgs) /\
    Forall2 Qeq avgs (Spec.averages m) /\
    Forall (fun a => Qred a = a) avgs.
Proof.
  induction m as [|[sid s] m IH]; intros Hfin.
  - exists []. repeat split; constructor.
  - destruct IH as (avgs & Hc & H2 & Hred).
    { intros sid' s' subject v Hin. apply (Hfin sid' s' subject v). now right. }
    destruct (@get_average_score_finite s) as (a & Ha & Haq & Har).
    { apply Forall_forall. intros v Hv. unfold dict_values in Hv.
      apply in_map_iff in Hv. destruct Hv as ([subject v'] & <- & Hin).
      apply (Hfin sid s subject v'); [now left | exact Hin]. }
    exists (a :: avgs). cbn [dict_values map list_comprehension snd].
    rewrite Ha. cbn [bind]. unfold dict_values in Hc. rewrite Hc. cbn [bind].
    repeat split.
    + constructor; assumption.
    + constructor; assumption.
Qed.

(** The mean [get_class_statistics] computes. *)
Lemma mean_computed (avgs avgs' : list Q) (n : Z) :
  Forall2 Qeq avgs avgs' -> avgs <> [] -> n = Z.of_nat (List.length avgs) ->
  exists r mean,
    py_sum (map PyFloat (map Finite avgs)) = Ok r /\
    truediv_int r n = Ok (Finite mean) /\
    mean == Spec.mean avgs'.
Proof.
  intros H2 Hne Hn.
  destruct (@py_sum_finite (map PyFloat (map Finite avgs))) as (r & Hsum & Hr & Hq).
  { apply Forall_forall. intros v Hv. rewrite map_map in Hv.
    apply in_map_iff in Hv. destruct Hv as (a & <- & _). eexists. reflexivity. }
  exists r. eexists. split; [exact Hsum|]. split.
  - apply truediv_int_finite; auto.
    subst n. destruct avgs; [congruence | simpl; lia].
  - rewrite Qred_correct, Hq. rewrite !map_map. cbn.
    rewrite map_id. rewrite (Forall2_Qeq_Qsum H2).
    destruct H2 as [|a b l l' Hab H2]; [congruence|].
    unfold Spec.mean. subst n.
    now rewrite (Forall2_Qeq_length (Forall2_cons _ _ Hab H2)).
Qed.

(** [get_class_statistics] on a store with a record, in terms of the
    averages it computes. *)
Lemma get_class_statistics_computed (self : StudentManager) :
  students self <> [] ->
  Spec.finite_scores (students self) ->
  exists (avgs : list Q) (mean mx mn : Q),
    Forall2 Qeq avgs (Spec.averages (students self)) /\
    Forall (fun a => Qred a = a) avgs /\
    get_class_statistics self
    = Ok (mkStatistics
            (len (students self))
            (PyFloat (Finite mean)) (PyFloat (Finite mx)) (PyFloat (Finite mn))
            (Spec.count_if Spec.excellent (Spec.averages (students self)))
            (Spec.count_if Spec.failing (Spec.averages (students self)))) /\
    mean == Spec.mean (Spec.averages (students self)) /\
    In mx avgs /\ (forall x, In x avgs -> x <= mx) /\
    In mn avgs /\ (forall x, In x avgs -> mn <= x).
Proof.
  intros Hne Hfin.
  destruct (averages_computed Hfin) as (avgs & Hc & H2 & Hred).
  assert (Hlen : len (students self) = Z.of_nat (List.length avgs)).
  { unfold len. rewrite (Forall2_Qeq_length H2). unfold Spec.averages, dict_values.
    now rewrite !length_map. }
  assert (Hane : avgs <> []).
  { intros ->. inversion H2 as [Hnil|]. unfold Spec.averages, dict_values in Hnil.
    destruct (students self); [congruence | discriminate]. }
  destruct (mean_computed H2 Hane Hlen) as (r & mean & Hsum & Hdiv & Hmean).
  destruct avgs as [|a l]; [congruence|].
  destruct (max_from_finite l a) as (mx & Hmx & Hmxin & Hmxle).
  destruct (min_from_finite l a) as (mn & Hmn & Hmnin & Hmnle).
  exists (a :: l), mean, mx, mn.
  split; [exact H2|]. split; [exact Hred|]. split; [|auto 6].
  unfold get_class_statistics.
  assert (Hfalse : dict_is_empty (students self) = false)
    by (destruct (students self); [congruence | reflexivity]).
  rewrite Hfalse, Hc. cbn [bind]. rewrite Hsum. cbn [bind].
  rewrite Hdiv. cbn [bind map py_max py_min]. rewrite Hmx, Hmn. cbn [bind].
  change (Finite a :: map Finite l) with (map Finite (a :: l)).
  rewrite (count_Forall2 (fun s => fge s (float_of_Z 90)) Spec.excellent
             excellent_computed H2).
  rewrite (count_Forall2 (fun s => flt s (float_of_Z 60)) Spec.failing
             failing_computed H2).
  reflexivity.
Qed.

(** Without records every field is 0. *)
Remark statistics_of_empty_store (self : StudentManager) :
  students self = [] ->
  get_class_statistics self
  = Ok (mkStatistics 0 (PyInt 0) (PyInt 0) (PyInt 0) 0 0).
Proof. intros Hempty. unfold get_class_statistics. now rewrite Hempty. Qed.

(** Three records with the averages 95, 55 and 72: 3 records, mean
    74.0, greatest 95.0, least 55.0, one excellent, one failing. *)
Remark statistics_of_three_students :
  get_class_statistics Sample.three_students
  = Ok (mkStatistics 3 (PyFloat (Finite 74)) (PyFloat (Finite 95))
                     (PyFloat (Finite 55)) 1 1).
Proof. vm_compute. reflexivity. Qed.

(** ** Records without scores *)

Lemma in_range_finite (v : pyval) : Spec.in_range v -> Spec.finite_number v.
Proof. intros (q & Hq & _). now exists q. Qed.

Lemma valid_store_finite (m : dict Student) :
  Spec.valid_store m -> Spec.finite_scores m.
Proof.
  intros Hv sid s subject v Hin Hsc.
  apply in_range_finite. exact (Hv sid s Hin subject v Hsc).
Qed.

Lemma Qsum_nonneg (l : list Q) :
  (forall x, In x l -> 0 <= x) -> 0 <= Spec.Qsum l.
Proof.
  induction l as [|x l IH]; intros H; simpl.
  - apply Qle_refl.
  - rewrite <- (Qplus_0_l 0). apply Qplus_le_compat.
    + apply H. now left.
    + apply IH. intros y Hy. apply H. now right.
Qed.

Lemma mean_nonneg (l : list Q) :
  (forall x, In x l -> 0 <= x) -> 0 <= Spec.mean l.
Proof.
  intros H. unfold Spec.mean. destruct l as [|x l]; [apply Qle_refl|].
  apply Qle_shift_div_l.
  - change 0 with (inject_Z 0). rewrite <- Zlt_Qlt. simpl. lia.
  - rewrite Qmult_0_l. now apply Qsum_nonneg.
Qed.

(** In a store that satisfies the invariant no average is negative. *)
Lemma average_of_nonneg (s : Student) :
  Spec.valid_scores (scores s) -> 0 <= Spec.average_of s.
Proof.
  intros Hv. apply mean_nonneg. intros x Hx.
  apply in_map_iff in Hx. destruct Hx as (v & <- & Hin).
  unfold dict_values in Hin. apply in_map_iff in Hin.
  destruct Hin as ([subject v'] & <- & Hin).
  destruct (Hv subject v' Hin) as (q & Hq & H0 & _).
  simpl. now rewrite (q_of_finite _ Hq).
Qed.

Lemma averages_In (m : dict Student) (sid : string) (s : Student) :
  In (sid, s) m -> In (Spec.average_of s) (Spec.averages m).
Proof.
  intros Hin. unfold Spec.averages, dict_values.
  apply in_map. change s with (snd (sid, s)). now apply in_map.
Qed.

Lemma averages_nonneg (m : dict Student) (a : Q) :
  Spec.valid_store m -> In a (Spec.averages m) -> 0 <= a.
Proof.
  intros Hv Hin. unfold Spec.averages, dict_values in Hin.
  apply in_map_iff in Hin. destruct Hin as (s & <- & Hin).
  apply in_map_iff in Hin. destruct Hin as ([sid s'] & <- & Hin).
  apply average_of_nonneg. exact (Hv sid s' Hin).
Qed.

Lemma count_if_positive (p : Q -> bool) (l : list Q) (x : Q) :
  In x l -> p x = true -> (1 <= Spec.count_if p l)%Z.
Proof.
  intros Hin Hp. unfold Spec.count_if.
  assert (Hf : In x (filter p l)) by (apply filter_In; auto).
  destruct (filter p l); [contradiction | simpl; lia].
Qed.

(** Statistics see a record through its average only. *)
Lemma list_comprehension_ext {A B : Type} (f : A -> result B) (l l' : list A) :
  Forall2 (fun a a' => f a = f a') l l' ->
  list_comprehension f l = list_comprehension f l'.
Proof.
  induction 1 as [|a a' l l' Ha _ IH]; simpl; [reflexivity|].
  now rewrite Ha, IH.
Qed.

Lemma dict_set_same_average (m : dict Student) (sid : string) (s s0 : Student) :
  dict_get m sid = Some s ->
  get_average_score s0 = get_average_score s ->
  Forall2 (fun a a' => get_average_score a = get_average_score a')
          (dict_values (dict_set m sid s0)) (dict_values m).
Proof.
  intros Hget Havg. induction m as [|[k x] m IH]; simpl in *; [discriminate|].
  destruct (String.eqb sid k).
  - inversion Hget; subst x. simpl. constructor; [exact Havg|].
    clear. induction m; simpl; constructor; auto.
  - simpl. constructor; auto.
Qed.

Lemma dict_set_present_length {V : Type} (m : dict V) (k : string) (v v0 : V) :
  dict_get m k = Some v -> List.length (dict_set m k v0) = List.length m.
Proof.
  induction m as [|[k' x] m IH]; simpl; [discriminate|].
  destruct (String.eqb k k'); simpl; auto.
Qed.

Lemma get_class_statistics_same_average (self : StudentManager) (sid : string)
      (s s0 : Student) :
  find_student self sid = Some s ->
  get_average_score s0 = get_average_score s ->
  get_class_statistics (set_students self (dict_set (students self) sid s0))
  = get_class_statistics self.
Proof.
  unfold find_student. intros Hget Havg. unfold get_class_statistics.
  cbn [students set_students].
  rewrite (list_comprehension_ext _
             (@dict_set_same_average (students self) sid s s0 Hget Havg)).
  unfold len.
  rewrite (@dict_set_present_length _ (students self) sid s s0 Hget).
  destruct (students self) as [|[k x] m]; [discriminate|].
  simpl. destruct (String.eqb sid k); reflexivity.
Qed.

(** C10.  In a store that satisfies the invariant on scores, a stored
    record without any score has the average 0.0, which is below 60;
    the statistics count it in [fail_count], which is therefore at
    least 1; and the least average they report is 0.0.  A score of zero
    in one subject gives the same average, and the statistics of the
    store are the same with the one record as with the other. *)
Theorem C10_record_without_scores (self : StudentManager) (sid : string)
        (s : Student) :
  Spec.valid_store (students self) ->
  find_student self sid = Some s ->
  scores s = [] ->
  get_average_score s = Ok (Finite 0) /\
  flt (Finite 0) (float_of_Z 60) = true /\
  (exists r : statistics,
      get_class_statistics self = Ok r /\
      (1 <= fail_count r)%Z /\
      min_score r = PyFloat (Finite 0)) /\
  (forall subject : string,
      get_average_score (set_scores s [(subject, PyInt 0)])
      = get_average_score s /\
      get_class_statistics
        (set_students self
           (dict_set (students self) sid (set_scores s [(subject, PyInt 0)])))
      = get_class_statistics self).
Proof.
  intros Hvalid Hfind Hempty.
  assert (Havg : get_average_score s = Ok (Finite 0)).
  { unfold get_average_score. now rewrite Hempty. }
  assert (Hzero : Spec.average_of s = 0).
  { unfold Spec.average_of. now rewrite Hempty. }
  assert (Hin : In (sid, s) (students self)) by now apply dict_get_Some_In.
  split; [exact Havg|]. split; [reflexivity|]. split.
  - destruct (get_class_statistics_computed self)
      as (avgs & mean & mx & mn & H2 & Hred & Hstat & _ & _ & _ & Hmn & Hmnle).
    { intros Hnil. rewrite Hnil in Hin. contradiction. }
    { now apply valid_store_finite. }
    eexists. split; [exact Hstat|]. cbn [fail_count min_score].
    split.
    + apply count_if_positive with (x := Spec.average_of s).
      * now apply averages_In with sid.
      * now rewrite Hzero.
    + do 2 f_equal.
      assert (Hle : mn <= 0).
      { destruct (Forall2_Qeq_In_r (Spec.average_of s) H2) as (x & Hx & Hx0).
        - now apply averages_In with sid.
        - rewrite Hzero in Hx0. rewrite <- Hx0. now apply Hmnle. }
      assert (Hge : 0 <= mn).
      { destruct (Forall2_Qeq_In_l mn H2 Hmn) as (y & Hy & Hmy).
        rewrite Hmy. now apply averages_nonneg with (students self). }
      rewrite Forall_forall in Hred. rewrite <- (Hred mn Hmn).
      change 0 with (Qred 0). apply Qred_complete. now apply Qle_antisym.
  - intros subject.
    assert (Hsame : get_average_score (set_scores s [(subject, PyInt 0)])
                    = get_average_score s) by now rewrite Havg.
    split; [exact Hsame|].
    now apply get_class_statistics_same_average with s.
Qed.

Lemma C10_record_without_scores_witness :
  get_average_score Sample.bob = Ok (Finite 0) /\
  exists r : statistics,
    get_class_statistics Sample.two_students = Ok r /\
    (1 <= fail_count r)%Z /\
    min_score r = PyFloat (Finite 0).
Proof.
  destruct (@C10_record_without_scores Sample.two_students "s2" Sample.bob)
    as (Havg & _ & Hstat & _).
  - intros sid s Hin subject v Hsc. vm_compute in Hin.
    destruct Hin as [Hin|[Hin|[]]]; inversion Hin; subst; clear Hin;
      simpl in Hsc.
    + destruct Hsc as [Hsc|[Hsc|[]]]; inversion Hsc; subst.
      * exists (inject_Z 95). split; [reflexivity|].
        split; unfold Qle; simpl; lia.
      * exists (1 # 2). split; [reflexivity|].
        split; unfold Qle; simpl; lia.
    + contradiction.
  - reflexivity.
  - reflexivity.
  - split; assumption.
Defined.

(* ================================================================== *)
(** * Further properties of the code *)

(** ** Substrings *)

Lemma prefix_append (k s : string) :
  String.prefix k s = true <-> exists b, s = (k ++ b)%string.
Proof.
  revert s. induction k as [|c k IH]; intros s.
  - split; [intros _; now exists s | intros _; now destruct s].
  - destruct s as [|c' s]; simpl.
    + split; [discriminate | intros [b Hb]; discriminate].
    + destruct (ascii_dec c c') as [->|Hne].
      * rewrite IH. split; intros [b Hb]; exists b; congruence.
      * split; [discriminate | intros [b Hb]; congruence].
Qed.

Lemma str_contains_unfold (s k : string) :
  str_contains s k
  = if String.prefix k s then true
    else match s with
         | EmptyString => false
         | String _ s' => str_contains s' k
         end.
Proof. now destruct s. Qed.

(** [str_contains] decides occurrence. *)
Lemma str_contains_occurs (s k : string) :
  str_contains s k = true <-> Spec.occurs_in k s.
Proof.
  split.
  - induction s as [|c s IH]; rewrite str_contains_unfold;
      destruct (String.prefix k _) eqn:E.
    + intros _. apply prefix_append in E. destruct E as [b ->].
      now exists EmptyString, b.
    + discriminate.
    + intros _. apply prefix_append in E. destruct E as [b ->].
      now exists EmptyString, b.
    + intros H. destruct (IH H) as (a & b & ->).
      now exists (String c a), b.
  - intros (a & b & ->). induction a as [|c a IH].
    + rewrite str_contains_unfold.
      assert (E : String.prefix k ("" ++ k ++ b) = true)
        by (apply prefix_append; now exists b).
      now rewrite E.
    + rewrite str_contains_unfold.
      destruct (String.prefix k _); [reflexivity|]. exact IH.
Qed.

Lemma str_contains_empty (s : string) : str_contains s "" = true.
Proof. rewrite str_contains_unfold. now destruct s. Qed.

Lemma str_contains_refl (s : string) : str_contains s s = true.
Proof.
  apply str_contains_occurs. exists EmptyString, EmptyString.
  simpl. clear. induction s; simpl; congruence.
Qed.

(** ** [StudentManager.search_students] *)

(** A selection whose condition never raises is a filter. *)
Lemma select_filter (cond : Student -> result bool) (keep : Student -> bool)
      (l : list Student) :
  (forall s, In s l -> cond s = Ok (keep s)) ->
  select cond l = Ok (filter keep l).
Proof.
  induction l as [|s l IH]; intros H; simpl; [reflexivity|].
  rewrite (H s) by now left. cbn [bind].
  rewrite IH by (intros s' Hs'; apply H; now right). reflexivity.
Qed.

(** Whatever a selection returns is a filter of its input. *)
Lemma select_selection (cond : Student -> result bool) (l out : list Student) :
  select cond l = Ok out ->
  out = filter (fun s => match cond s with Ok b => b | Raise _ => false end) l.
Proof.
  revert out. induction l as [|s l IH]; intros out; simpl.
  - now intros [= <-].
  - destruct (cond s) as [b|e]; [|discriminate]. cbn [bind].
    destruct (select cond l) as [others|e]; [|discriminate]. cbn [bind].
    intros [= <-]. rewrite <- (IH others eq_refl). reflexivity.
Qed.

Lemma In_dict_values {V : Type} (m : dict V) (v : V) :
  In v (dict_values m) <-> exists k, In (k, v) m.
Proof.
  unfold dict_values. rewrite in_map_iff. split.
  - intros ([k v'] & <- & Hin). now exists k.
  - intros (k & Hin). now exists (k, v).
Qed.

Lemma search_matches_text (k : string) (s : Student) (n g : string) :
  name s = PyStr n -> gender s = PyStr g ->
  search_matches k s
  = Ok (str_contains (student_id s) k || str_contains n k || str_contains g k).
Proof.
  intros Hn Hg. unfold search_matches. rewrite Hn, Hg.
  destruct (str_contains (student_id s) k); [reflexivity|].
  cbn [py_contains bind orb].
  now destruct (str_contains n k).
Qed.

Lemma search_matches_iff (k : string) (s : Student) (n g : string) :
  name s = PyStr n -> gender s = PyStr g ->
  (str_contains (student_id s) k || str_contains n k || str_contains g k = true
   <-> Spec.matches k s).
Proof.
  intros Hn Hg. unfold Spec.matches.
  rewrite !orb_true_iff, !str_contains_occurs. rewrite Hn, Hg. split.
  - intros [[H|H]|H]; [now left | right; left; now exists n
                       | right; right; now exists g].
  - intros [H|[(n' & [= <-] & H)|(g' & [= <-] & H)]]; tauto.
Qed.

(** X1.  In a store whose names and genders are text,
    [search_students] raises nothing and returns the stored records in
    which the keyword occurs in the id, the name or the gender: all of
    them, no other, in the order of the store. *)
Theorem X1_search_students_matches (self : StudentManager) (keyword : string) :
  Spec.text_fields (students self) ->
  exists found : list Student,
    search_students self keyword = Ok found /\
    Spec.selection_of found (get_all_students self) /\
    forall s, In s found <->
              In s (get_all_students self) /\ Spec.matches keyword s.
Proof.
  intros Htext.
  set (keep := fun s : Student =>
                 match search_matches keyword s with
                 | Ok b => b
                 | Raise _ => false
                 end).
  assert (Hcond : forall s, In s (dict_values (students self)) ->
                            search_matches keyword s = Ok (keep s) /\
                            (keep s = true <-> Spec.matches keyword s)).
  { intros s Hs. apply In_dict_values in Hs. destruct Hs as [sid Hin].
    destruct (Htext sid s Hin) as [[n Hn] [g Hg]].
    unfold keep. rewrite (search_matches_text keyword s Hn Hg).
    split; [reflexivity|]. now apply search_matches_iff. }
  exists (filter keep (get_all_students self)). split; [|split].
  - unfold search_students, get_all_students. apply select_filter.
    intros s Hs. apply (Hcond s Hs).
  - now exists keep.
  - intros s. rewrite filter_In. unfold get_all_students. split.
    + intros [Hs Hk]. split; [exact Hs|]. now apply (Hcond s Hs).
    + intros [Hs Hm]. split; [exact Hs|]. now apply (Hcond s Hs).
Qed.

(** X2.  The empty keyword occurs in every id, so [search_students]
    returns every record, whatever the names and genders hold: they are
    not looked at. *)
Theorem X2_search_students_empty_keyword (self : StudentManager) :
  search_students self "" = Ok (get_all_students self).
Proof.
  unfold search_students, get_all_students.
  rewrite (select_filter (search_matches "") (fun _ => true)).
  - f_equal. induction (dict_values (students self)); simpl; congruence.
  - intros s _. unfold search_matches. now rewrite str_contains_empty.
Qed.

(** The one exception a selection by keyword can raise. *)
Lemma search_matches_raises (k : string) (s : Student) (e : exn) :
  search_matches k s = Raise e -> e = TypeError.
Proof.
  unfold search_matches.
  destruct (str_contains (student_id s) k); [discriminate|].
  destruct (name s) as [| | | |n|l|d]; cbn [py_contains bind];
    try (now intros [= <-]).
  - destruct (str_contains n k); [discriminate|].
    destruct (gender s); cbn [py_contains]; try discriminate; now intros [= <-].
  - destruct (existsb _ l); [discriminate|].
    destruct (gender s); cbn [py_contains]; try discriminate; now intros [= <-].
  - destruct (dict_contains d k); [discriminate|].
    destruct (gender s); cbn [py_contains]; try discriminate; now intros [= <-].
Qed.

Lemma select_raises (cond : Student -> result bool) (l : list Student)
      (s : Student) (e : exn) :
  (forall s' e', cond s' = Raise e' -> e' = e) ->
  In s l -> cond s = Raise e -> select cond l = Raise e.
Proof.
  intros Hall. induction l as [|s0 l IH]; simpl; [contradiction|].
  intros Hin Hs. destruct (cond s0) as [b|e0] eqn:E0.
  - cbn [bind]. destruct Hin as [->|Hin]; [congruence|].
    now rewrite (IH Hin Hs).
  - cbn [bind]. now rewrite (Hall s0 e0 E0).
Qed.

(** X3.  [update_student] stores whatever name it is given.  Once the
    name of a stored record is a number, a keyword that does not occur
    in the id of that record makes [search_students] raise
    [TypeError]. *)
Theorem X3_search_students_after_numeric_name (self : StudentManager)
        (sid keyword : string) (s : Student) (n : Z) :
  find_student self sid = Some s ->
  str_contains (student_id s) keyword = false ->
  let updated := fst (update_student self sid [("name"%string, PyInt n)]) in
  snd (update_student self sid [("name"%string, PyInt n)]) = Ok true /\
  find_student updated sid = Some (set_name s (PyInt n)) /\
  search_students updated keyword = Raise TypeError.
Proof.
  intros Hfind Hid. cbv zeta.
  assert (Hsup : Spec.supplies_scores [("name"%string, PyInt n)] [])
    by (left; split; reflexivity).
  rewrite (update_student_present self sid Hfind Hsup). cbn [fst snd].
  assert (Hst : find_student
                  (fst (save_data
                          (set_students self
                             (dict_set (students self) sid (set_name s (PyInt n))))))
                  sid = Some (set_name s (PyInt n))).
  { unfold find_student. rewrite students_save_data.
    cbn [students set_students]. apply dict_get_set_same. }
  split; [reflexivity|]. split; [exact Hst|].
  unfold search_students.
  apply select_raises with (s := set_name s (PyInt n)).
  - intros s' e'. apply search_matches_raises.
  - apply In_dict_values. exists sid. now apply dict_get_Some_In.
  - unfold search_matches. cbn [student_id set_name name]. now rewrite Hid.
Qed.

(** ** Bounds of sums and averages *)

Lemma Qsum_bounds (l : list Q) (lo hi : Q) :
  (forall x, In x l -> lo <= x /\ x <= hi) ->
  lo * inject_Z (Z.of_nat (List.length l)) <= Spec.Qsum l /\
  Spec.Qsum l <= hi * inject_Z (Z.of_nat (List.length l)).
Proof.
  induction l as [|x l IH]; intros H.
  - cbn [List.length Spec.Qsum fold_right Z.of_nat].
    change (inject_Z 0) with 0. split; lra.
  - destruct IH as [IHlo IHhi]; [intros y Hy; apply H; now right|].
    destruct (H x (or_introl eq_refl)) as [Hlo Hhi].
    cbn [List.length Spec.Qsum fold_right].
    rewrite Nat2Z.inj_succ. unfold Z.succ. rewrite inject_Z_plus.
    change (fold_right Qplus 0 l) with (Spec.Qsum l).
    change (inject_Z 1) with 1.
    split; nra.
Qed.

Lemma mean_bounds (l : list Q) (lo hi : Q) :
  l <> [] ->
  (forall x, In x l -> lo <= x /\ x <= hi) ->
  lo <= Spec.mean l /\ Spec.mean l <= hi.
Proof.
  intros Hne H. destruct (Qsum_bounds l H) as [Hlo Hhi].
  destruct l as [|x l]; [congruence|]. unfold Spec.mean.
  assert (Hn : 0 < inject_Z (Z.of_nat (List.length (x :: l)))).
  { change 0 with (inject_Z 0). rewrite <- Zlt_Qlt. simpl. lia. }
  split.
  - now apply Qle_shift_div_l.
  - now apply Qle_shift_div_r.
Qed.

Lemma average_of_bounds (s : Student) :
  Spec.valid_scores (scores s) ->
  0 <= Spec.average_of s /\ Spec.average_of s <= 100.
Proof.
  intros Hv. split; [now apply average_of_nonneg|].
  unfold Spec.average_of.
  destruct (dict_values (scores s)) as [|v vs] eqn:E.
  - simpl. lra.
  - refine (proj2 (@mean_bounds (map Spec.q_of (v :: vs)) 0 100 _ _));
      [discriminate|].
    intros x Hx. apply in_map_iff in Hx. destruct Hx as (v' & <- & Hin).
    rewrite <- E in Hin. apply In_dict_values in Hin. destruct Hin as [subject Hin].
    destruct (Hv subject v' Hin) as (q & Hq & H0 & H100).
    now rewrite (q_of_finite _ Hq).
Qed.

Lemma valid_scores_finite (s : Student) :
  Spec.valid_scores (scores s) ->
  Forall Spec.finite_number (dict_values (scores s)).
Proof.
  intros Hv. apply Forall_forall. intros v Hin.
  apply In_dict_values in Hin. destruct Hin as [subject Hin].
  apply in_range_finite. exact (Hv subject v Hin).
Qed.

(** X4.  For scores that are all numbers of [0,100],
    [get_average_score] raises nothing and returns a number of [0,100]. *)
Theorem X4_average_in_range (s : Student) :
  Spec.valid_scores (scores s) ->
  exists a : Q,
    get_average_score s = Ok (Finite a) /\ 0 <= a /\ a <= 100.
Proof.
  intros Hv.
  destruct (get_average_score_finite s (valid_scores_finite s Hv))
    as (a & Ha & Heq & _).
  destruct (average_of_bounds s Hv) as [H0 H100].
  exists a. split; [exact Ha|].
  rewrite Heq. now split.
Qed.

(** ** [StudentManager.get_students_by_score_range] *)

Lemma in_score_range_finite (s : Student) (lo hi : pyval) (l h : Q) :
  Forall Spec.finite_number (dict_values (scores s)) ->
  float_value lo = Some (Finite l) ->
  float_value hi = Some (Finite h) ->
  exists b : bool,
    in_score_range lo hi s = Ok b /\
    (b = true <-> l <= Spec.average_of s /\ Spec.average_of s <= h).
Proof.
  intros Hfin Hlo Hhi.
  destruct (get_average_score_finite s Hfin) as (a & Ha & Heq & _).
  unfold in_score_range, py_le. rewrite Ha, Hlo, Hhi.
  cbn [bind float_value fle].
  destruct (Qle_bool l a) eqn:E1.
  - exists (Qle_bool a h). split; [reflexivity|].
    apply Qle_bool_iff in E1. rewrite Qle_bool_iff, <- Heq. tauto.
  - exists false. split; [reflexivity|]. split; [discriminate|].
    intros [H _]. rewrite <- Heq in H. apply Qle_bool_iff in H. congruence.
Qed.

Lemma finite_scores_values (m : dict Student) (s : Student) :
  Spec.finite_scores m -> In s (dict_values m) ->
  Forall Spec.finite_number (dict_values (scores s)).
Proof.
  intros Hfin Hs. apply In_dict_values in Hs. destruct Hs as [sid Hin].
  apply Forall_forall. intros v Hv. apply In_dict_values in Hv.
  destruct Hv as [subject Hv]. exact (Hfin sid s subject v Hin Hv).
Qed.

(** With averages computed exactly, the records selected are those
    whose mean lies between the bounds. *)
Lemma score_range_selects_exact (self : StudentManager) (min_score max_score : pyval)
        (lo hi : Q) :
  Spec.finite_scores (students self) ->
  float_value min_score = Some (Finite lo) ->
  float_value max_score = Some (Finite hi) ->
  exists found : list Student,
    get_students_by_score_range self min_score max_score = Ok found /\
    Spec.selection_of found (get_all_students self) /\
    forall s, In s found <->
              In s (get_all_students self) /\
              lo <= Spec.average_of s /\ Spec.average_of s <= hi.
Proof.
  intros Hfin Hlo Hhi.
  set (keep := fun s : Student =>
                 match in_score_range min_score max_score s with
                 | Ok b => b
                 | Raise _ => false
                 end).
  assert (Hcond : forall s, In s (dict_values (students self)) ->
                    in_score_range min_score max_score s = Ok (keep s) /\
                    (keep s = true <->
                     lo <= Spec.average_of s /\ Spec.average_of s <= hi)).
  { intros s Hs.
    destruct (@in_score_range_finite s min_score max_score lo hi
                (@finite_scores_values (students self) s Hfin Hs) Hlo Hhi)
      as (b & Hb & Hiff).
    unfold keep. rewrite Hb. now split. }
  exists (filter keep (get_all_students self)). split; [|split].
  - unfold get_students_by_score_range, get_all_students. apply select_filter.
    intros s Hs. apply (Hcond s Hs).
  - now exists keep.
  - intros s. rewrite filter_In. unfold get_all_students. split.
    + intros [Hs Hk]. split; [exact Hs|]. now apply (Hcond s Hs).
    + intros [Hs Hm]. split; [exact Hs|]. now apply (Hcond s Hs).
Qed.

(** X5.  In a store that satisfies the invariant on scores, and for
    bounds that are finite numbers, [get_students_by_score_range]
    raises nothing and returns some of the stored records, in the order
    of the store; none when the upper bound is below the lower one; a
    record without scores exactly when 0 lies between the bounds; and
    with a wider range it returns every record it returned with the
    narrower one. *)
Theorem X5_score_range_selects (self : StudentManager) (min_score max_score : pyval)
        (lo hi : Q) :
  Spec.valid_store (students self) ->
  float_value min_score = Some (Finite lo) ->
  float_value max_score = Some (Finite hi) ->
  exists found : list Student,
    get_students_by_score_range self min_score max_score = Ok found /\
    Spec.selection_of found (get_all_students self) /\
    (hi < lo -> found = []) /\
    (forall s, In s (get_all_students self) -> scores s = [] ->
               (In s found <-> lo <= 0 /\ 0 <= hi)) /\
    (forall (min' max' : pyval) (lo' hi' : Q),
        float_value min' = Some (Finite lo') ->
        float_value max' = Some (Finite hi') ->
        lo' <= lo -> hi <= hi' ->
        exists wider : list Student,
          get_students_by_score_range self min' max' = Ok wider /\
          forall s, In s found -> In s wider).
Proof.
  intros Hvalid Hlo Hhi.
  pose proof (valid_store_finite Hvalid) as Hfin.
  destruct (@score_range_selects_exact self min_score max_score lo hi Hfin Hlo Hhi)
    as (found & Hfound & Hsel & Hiff).
  exists found. split; [exact Hfound|]. split; [exact Hsel|]. split; [|split].
  - intros Hlt. destruct found as [|s found]; [reflexivity|].
    destruct (proj1 (Hiff s) (or_introl eq_refl)) as (_ & H1 & H2). lra.
  - intros s Hs Hempty. rewrite Hiff.
    assert (Hzero : Spec.average_of s = 0)
      by (unfold Spec.average_of; now rewrite Hempty).
    rewrite Hzero. tauto.
  - intros min' max' lo' hi' Hlo' Hhi' Hl Hh.
    destruct (@score_range_selects_exact self min' max' lo' hi' Hfin Hlo' Hhi')
      as (wider & Hwider & _ & Hiff').
    exists wider. split; [exact Hwider|].
    intros s Hs. apply Hiff in Hs. destruct Hs as (Hs & H1 & H2).
    apply Hiff'. split; [exact Hs|]. split; lra.
Qed.

Lemma filter_all {A : Type} (l : list A) : filter (fun _ => true) l = l.
Proof. induction l; simpl; congruence. Qed.

(** X6.  In a store that satisfies the invariant on scores, the range
    from 0 to 100, or any wider one, returns every record. *)
Theorem X6_score_range_full (self : StudentManager) (min_score max_score : pyval)
        (lo hi : Q) :
  Spec.valid_store (students self) ->
  float_value min_score = Some (Finite lo) ->
  float_value max_score = Some (Finite hi) ->
  lo <= 0 -> 100 <= hi ->
  get_students_by_score_range self min_score max_score
  = Ok (get_all_students self).
Proof.
  intros Hvalid Hlo Hhi Hl Hh.
  unfold get_students_by_score_range, get_all_students.
  rewrite (select_filter (in_score_range min_score max_score) (fun _ => true)).
  - now rewrite filter_all.
  - intros s Hs.
    assert (Hv : Spec.valid_scores (scores s)).
    { apply In_dict_values in Hs. destruct Hs as [sid Hin].
      exact (Hvalid sid s Hin). }
    destruct (@in_score_range_finite s min_score max_score lo hi
                (valid_scores_finite s Hv) Hlo Hhi) as (b & Hb & Hiff).
    destruct (average_of_bounds s Hv) as [H0 H100].
    rewrite Hb. f_equal. apply Hiff. split; lra.
Qed.

(** ** Order between the fields of the statistics *)

Lemma exclusive_counts (l : list Q) :
  (Spec.count_if Spec.excellent l + Spec.count_if Spec.failing l
   <= Z.of_nat (List.length l))%Z.
Proof.
  unfold Spec.count_if. induction l as [|a l IH]; [simpl; lia|].
  assert (H : Spec.excellent a = true -> Spec.failing a = false).
  { unfold Spec.excellent, Spec.failing. intros H. apply Qle_bool_iff in H.
    apply negb_false_iff, Qle_bool_iff. lra. }
  cbn [filter].
  destruct (Spec.excellent a); [rewrite (H eq_refl)|destruct (Spec.failing a)];
    cbn [List.length]; rewrite ?Nat2Z.inj_succ; lia.
Qed.

(** X7.  On a store with records that satisfies the invariant on
    scores, [get_class_statistics] raises nothing and its fields are
    consistent: [total_students] is the number of records; the mean,
    the greatest and the least average are numbers of [0,100], the
    least at most the greatest; and the records counted as excellent
    and as failing are together at most the records of the store. *)
Theorem X7_statistics_consistent (self : StudentManager) :
  students self <> [] ->
  Spec.valid_store (students self) ->
  exists (r : statistics) (mean mx mn : Q),
    get_class_statistics self = Ok r /\
    total_students r = Z.of_nat (List.length (students self)) /\
    average_score r = PyFloat (Finite mean) /\
    max_score r = PyFloat (Finite mx) /\
    min_score r = PyFloat (Finite mn) /\
    0 <= mn /\ mn <= mx /\ mx <= 100 /\
    0 <= mean /\ mean <= 100 /\
    (0 <= excellent_count r)%Z /\ (0 <= fail_count r)%Z /\
    (excellent_count r + fail_count r <= total_students r)%Z.
Proof.
  intros Hne Hvalid.
  destruct (get_class_statistics_computed self Hne (valid_store_finite Hvalid))
    as (avgs & mean & mx & mn & H2 & _ & Hstat & Hmean & Hmx & Hmxle & Hmn & Hmnle).
  eexists. exists mean, mx, mn. split; [exact Hstat|].
  cbn [average_score max_score min_score excellent_count fail_count total_students].
  assert (Hb : forall x, In x (Spec.averages (students self)) ->
                         0 <= x /\ x <= 100).
  { intros y Hy. unfold Spec.averages in Hy. apply in_map_iff in Hy.
    destruct Hy as (s & <- & Hs). apply In_dict_values in Hs.
    destruct Hs as [sid Hin]. apply average_of_bounds. exact (Hvalid sid s Hin). }
  assert (Hc : forall x, In x avgs -> 0 <= x /\ x <= 100).
  { intros x Hx. destruct (Forall2_Qeq_In_l x H2 Hx) as (y & Hy & Hxy).
    rewrite Hxy. now apply Hb. }
  assert (Hane : Spec.averages (students self) <> []).
  { unfold Spec.averages, dict_values.
    destruct (students self); [congruence|discriminate]. }
  destruct (mean_bounds Hane Hb) as [Hlo Hhi].
  split; [reflexivity|]. do 3 (split; [reflexivity|]).
  split; [apply (Hc mn Hmn)|]. split; [now apply Hmxle|].
  split; [apply (Hc mx Hmx)|].
  split; [now rewrite Hmean|]. split; [now rewrite Hmean|].
  split; [unfold Spec.count_if; lia|]. split; [unfold Spec.count_if; lia|].
  unfold len. replace (List.length (students self))
    with (List.length (Spec.averages (students self)))
    by (unfold Spec.averages, dict_values; now rewrite !length_map).
  apply exclusive_counts.
Qed.

(** ** [Student.get_total_score] *)

Lemma sum_from_ints (l : list pyval) (acc : Z) :
  (forall v, In v l -> exists z, int_value v = Some z) ->
  sum_from (PyInt acc) l = Ok (PyInt (acc + Spec.Zsum (map Spec.z_of l))).
Proof.
  revert acc. induction l as [|v l IH]; intros acc Hall; simpl.
  - now rewrite Z.add_0_r.
  - destruct (Hall v (or_introl eq_refl)) as [z Hz].
    unfold num_add. cbn [int_value]. rewrite Hz. cbn [bind].
    rewrite IH by (intros v' Hv'; apply Hall; now right).
    unfold Spec.z_of at 2. rewrite Hz. now rewrite Z.add_assoc.
Qed.

(** X8.  [get_total_score] on scores that are all integers returns
    their sum as an integer, exactly, and the integer 0 when there is
    no score.  On scores that are all numbers of [0,100] it raises
    nothing and returns a number between 0 and 100 times the number of
    subjects. *)
Theorem X8_total_score (s : Student) :
  (Spec.int_scores (scores s) ->
   get_total_score s
   = Ok (PyInt (Spec.Zsum (map Spec.z_of (dict_values (scores s)))))) /\
  (scores s = [] -> get_total_score s = Ok (PyInt 0)) /\
  (Spec.valid_scores (scores s) ->
   exists (total : pyval) (q : Q),
     get_total_score s = Ok total /\
     float_value total = Some (Finite q) /\
     0 <= q /\ q <= 100 * inject_Z (len (scores s))).
Proof.
  unfold get_total_score, py_sum. split; [|split].
  - intros Hint. rewrite sum_from_ints; [reflexivity|].
    intros v Hv. apply In_dict_values in Hv. destruct Hv as [subject Hin].
    exact (Hint subject v Hin).
  - intros ->. reflexivity.
  - intros Hv.
    destruct (py_sum_finite (valid_scores_finite s Hv)) as (total & Hsum & [q Hq] & Heq).
    exists total, q. split; [exact Hsum|]. split; [exact Hq|].
    rewrite (q_of_finite _ Hq) in Heq.
    destruct (@Qsum_bounds (map Spec.q_of (dict_values (scores s))) 0 100) as [Hlo Hhi].
    { intros x Hx. apply in_map_iff in Hx. destruct Hx as (v & <- & Hin).
      apply In_dict_values in Hin. destruct Hin as [subject Hin].
      destruct (Hv subject v Hin) as (q' & Hq' & H0 & H100).
      now rewrite (q_of_finite _ Hq'). }
    unfold len. unfold dict_values in Hlo, Hhi. rewrite !length_map in Hlo, Hhi.
    unfold dict_values in Heq. rewrite Heq. split; [|exact Hhi].
    rewrite Qmult_0_l in Hlo. exact Hlo.
Qed.

(** ** Invariants of the mapping of records *)

Lemma dict_keys_set {V : Type} (d : dict V) (k : string) (v : V) :
  dict_keys (dict_set d k v)
  = if dict_contains d k then dict_keys d else dict_keys d ++ [k].
Proof.
  unfold dict_contains. induction d as [|[k' v'] d IH]; simpl; [reflexivity|].
  destruct (String.eqb k k'); simpl; [reflexivity|].
  rewrite IH. now destruct (dict_get d k).
Qed.

Lemma dict_contains_In {V : Type} (d : dict V) (k : string) :
  dict_contains d k = false <-> ~ In k (dict_keys d).
Proof.
  unfold dict_contains. rewrite <- dict_get_None_notin.
  destruct (dict_get d k); split; congruence.
Qed.

Lemma NoDup_dict_set {V : Type} (d : dict V) (k : string) (v : V) :
  NoDup (dict_keys d) -> NoDup (dict_keys (dict_set d k v)).
Proof.
  intros Hnd. rewrite dict_keys_set.
  destruct (dict_contains d k) eqn:E; [exact Hnd|].
  apply dict_contains_In in E.
  apply NoDup_app; [exact Hnd | repeat constructor; simpl; tauto |].
  intros x Hx [<-|[]]. contradiction.
Qed.

Lemma dict_keys_del {V : Type} (d : dict V) (k : string) :
  dict_keys (dict_del d k) = filter (fun k' => negb (String.eqb k k')) (dict_keys d).
Proof.
  induction d as [|[k' v'] d IH]; simpl; [reflexivity|].
  destruct (String.eqb k k'); simpl; congruence.
Qed.

Lemma NoDup_dict_del {V : Type} (d : dict V) (k : string) :
  NoDup (dict_keys d) -> NoDup (dict_keys (dict_del d k)).
Proof. intros H. rewrite dict_keys_del. now apply NoDup_filter. Qed.

Lemma NoDup_dict_comprehension_from {A V : Type} (f : A -> result V)
      (items : list (string * A)) (acc out : dict V) :
  NoDup (dict_keys acc) ->
  dict_comprehension_from f items acc = Ok out ->
  NoDup (dict_keys out).
Proof.
  revert acc. induction items as [|[k a] items IH]; intros acc Hnd; simpl.
  - now intros [= <-].
  - destruct (f a) as [v|e]; [|discriminate]. cbn [bind].
    apply IH. now apply NoDup_dict_set.
Qed.

Lemma students_update_student (self : StudentManager) (sid : string)
      (kwargs : dict pyval) :
  students (fst (update_student self sid kwargs)) = students self \/
  exists s s', find_student self sid = Some s /\
               student_id s' = student_id s /\
               create_time s' = create_time s /\
               students (fst (update_student self sid kwargs))
               = dict_set (students self) sid s'.
Proof.
  unfold update_student, find_student.
  destruct (dict_get (students self) sid) as [s|] eqn:E; [|now left].
  right. exists s.
  rewrite update_field_name, update_field_age, update_field_gender.
  set (patched := set_gender _ _).
  assert (Hp : student_id patched = student_id s /\
               create_time patched = create_time s) by (split; reflexivity).
  destruct (dict_get kwargs "scores") as [v|].
  - destruct (py_items v) as [items|e].
    + exists (add_scores patched items). cbn [fst].
      rewrite students_save_data. cbn [students set_students].
      rewrite (add_scores_fields items patched). cbn [student_id create_time set_scores].
      tauto.
    + exists patched. cbn [fst students set_students]. tauto.
  - exists patched. cbn [fst]. rewrite students_save_data.
    cbn [students set_students]. tauto.
Qed.

(** X9.  The keys of the mapping of records stay distinct: if they are
    before [add_student], [delete_student] or [update_student], they
    are after it, whatever the arguments and the outcome; and after
    [load_data] on any file. *)
Theorem X9_keys_stay_distinct (self : StudentManager) :
  NoDup (dict_keys (students self)) ->
  (forall student, NoDup (dict_keys (students (fst (add_student self student))))) /\
  (forall sid, NoDup (dict_keys (students (fst (delete_student self sid))))) /\
  (forall sid kwargs,
      NoDup (dict_keys (students (fst (update_student self sid kwargs))))) /\
  NoDup (dict_keys (students (fst (load_data self)))).
Proof.
  intros Hnd. repeat split.
  - intros student. unfold add_student.
    destruct (dict_contains (students self) (student_id student)); [exact Hnd|].
    cbn [fst]. rewrite students_save_data. cbn [students set_students].
    now apply NoDup_dict_set.
  - intros sid. unfold delete_student.
    destruct (dict_contains (students self) sid); [|exact Hnd].
    cbn [negb fst]. rewrite students_save_data. cbn [students set_students].
    now apply NoDup_dict_del.
  - intros sid kwargs.
    destruct (students_update_student self sid kwargs)
      as [->|(s & s' & _ & _ & _ & ->)]; [exact Hnd|].
    now apply NoDup_dict_set.
  - unfold load_data. destruct (content (data_file self)) as [| |doc]; try exact Hnd.
    destruct (students_of doc) as [m|e] eqn:E; [|exact Hnd].
    cbn [fst students set_students]. unfold students_of in E.
    destruct (py_get doc "students" (PyDict [])) as [recs|]; [|discriminate].
    cbn [bind] in E. destruct (py_items recs) as [items|]; [|discriminate].
    cbn [bind] in E. unfold dict_comprehension in E.
    apply (NoDup_dict_comprehension_from from_dict items [] (NoDup_nil _) E).
Qed.

Lemma keyed_dict_set (m : dict Student) (sid : string) (s : Student) :
  Spec.keyed_by_id m -> student_id s = sid ->
  Spec.keyed_by_id (dict_set m sid s).
Proof.
  intros Hk Hs. induction m as [|[k x] m IH]; simpl.
  - intros k' s' [[= <- <-]|[]]. exact Hs.
  - assert (Hm : Spec.keyed_by_id m)
      by (intros k' s' Hin; apply Hk; now right).
    destruct (String.eqb_spec sid k) as [->|Hne].
    + intros k' s' [[= <- <-]|Hin]; [exact Hs | now apply Hm].
    + intros k' s' [[= <- <-]|Hin]; [apply Hk; now left | now apply (IH Hm)].
Qed.

Lemma keyed_dict_del (m : dict Student) (sid : string) :
  Spec.keyed_by_id m -> Spec.keyed_by_id (dict_del m sid).
Proof.
  intros Hk. induction m as [|[k x] m IH]; simpl; [exact Hk|].
  assert (Hm : Spec.keyed_by_id m)
    by (intros k' s' Hin; apply Hk; now right).
  destruct (String.eqb sid k); [now apply IH|].
  intros k' s' [[= <- <-]|Hin]; [apply Hk; now left | now apply (IH Hm)].
Qed.

(** X10.  Every record stays stored under its own id: if that holds
    before [add_student], [delete_student] or [update_student], it
    holds after it, whatever the arguments and the outcome (no
    operation changes the id of a record). *)
Theorem X10_records_keyed_by_id (self : StudentManager) :
  Spec.keyed_by_id (students self) ->
  (forall student,
      Spec.keyed_by_id (students (fst (add_student self student)))) /\
  (forall sid, Spec.keyed_by_id (students (fst (delete_student self sid)))) /\
  (forall sid kwargs,
      Spec.keyed_by_id (students (fst (update_student self sid kwargs)))).
Proof.
  intros Hk. repeat split.
  - intros student. unfold add_student.
    destruct (dict_contains (students self) (student_id student)); [exact Hk|].
    cbn [fst]. rewrite students_save_data. cbn [students set_students].
    now apply keyed_dict_set.
  - intros sid. unfold delete_student.
    destruct (dict_contains (students self) sid); [|exact Hk].
    cbn [negb fst]. rewrite students_save_data. cbn [students set_students].
    now apply keyed_dict_del.
  - intros sid kwargs.
    destruct (students_update_student self sid kwargs)
      as [->|(s & s' & Hfind & Hid & _ & ->)]; [exact Hk|].
    apply keyed_dict_set; [exact Hk|].
    rewrite Hid. apply Hk. now apply dict_get_Some_In.
Qed.

(** ** [StudentManager.load_data]: the keys of the document *)

Lemma dict_comprehension_from_keeps {A V : Type} (f : A -> result V)
      (items : list (string * A)) (acc out : dict V) (k : string) :
  dict_comprehension_from f items acc = Ok out ->
  ~ In k (dict_keys items) ->
  dict_get out k = dict_get acc k.
Proof.
  revert acc. induction items as [|[k0 a] items IH]; intros acc; simpl.
  - now intros [= <-].
  - destruct (f a) as [v|e]; [|discriminate]. cbn [bind].
    intros H Hn. rewrite (IH _ H) by tauto.
    apply dict_get_set_other. intros ->. tauto.
Qed.

Lemma dict_comprehension_from_get {A V : Type} (f : A -> result V)
      (items : list (string * A)) (acc out : dict V) (k : string) (a : A) (v : V) :
  dict_comprehension_from f items acc = Ok out ->
  NoDup (dict_keys items) -> In (k, a) items -> f a = Ok v ->
  dict_get out k = Some v.
Proof.
  revert acc. induction items as [|[k0 a0] items IH]; intros acc; simpl;
    [contradiction|].
  destruct (f a0) as [v0|e] eqn:E0; [|discriminate]. cbn [bind].
  intros H Hnd [[= -> ->]|Hin] Hf.
  - inversion Hnd; subst.
    rewrite (dict_comprehension_from_keeps f items _ k H) by assumption.
    rewrite dict_get_set_same. congruence.
  - inversion Hnd; subst. now apply (IH _ H).
Qed.

(** X11.  [load_data] files each record under the key it has in the
    document, and takes nothing from the [student_id] inside the
    record: after a load that succeeded, the key of an entry of the
    document finds the record that entry deserializes to. *)
Theorem X11_load_data_uses_document_keys (self : StudentManager) (doc : pyval)
        (recs : dict pyval) (key : string) (rec : pyval) (s : Student) :
  content (data_file self) = Document doc ->
  py_get doc "students" (PyDict []) = Ok (PyDict recs) ->
  NoDup (dict_keys recs) ->
  In (key, rec) recs ->
  from_dict rec = Ok s ->
  snd (load_data self) = true ->
  find_student (fst (load_data self)) key = Some s.
Proof.
  intros Hc Hget Hnd Hin Hs. unfold load_data, find_student. rewrite Hc.
  unfold students_of. rewrite Hget. cbn [bind py_items].
  unfold dict_comprehension, dict_items.
  destruct (dict_comprehension_from from_dict recs []) as [m|e] eqn:E;
    [|discriminate].
  intros _. cbn [fst students set_students].
  exact (@dict_comprehension_from_get _ _ from_dict recs [] m key rec s
           E Hnd Hin Hs).
Qed.

(** ** Mutations and the backing file *)

Lemma In_dict_set {V : Type} (d : dict V) (k0 k : string) (v x : V) :
  In (k, x) (dict_set d k0 v) -> In (k, x) d \/ (k = k0 /\ x = v).
Proof.
  induction d as [|[k' v'] d IH]; simpl.
  - intros [[= <- <-]|[]]. now right.
  - destruct (String.eqb_spec k0 k') as [->|Hne]; simpl.
    + intros [[= <- <-]|Hin]; [now right | left; now right].
    + intros [Heq|Hin]; [left; now left|].
      destruct (IH Hin) as [H|H]; [left; now right | now right].
Qed.

Lemma In_dict_del {V : Type} (d : dict V) (k0 k : string) (x : V) :
  In (k, x) (dict_del d k0) -> In (k, x) d.
Proof.
  induction d as [|[k' v'] d IH]; simpl; [tauto|].
  destruct (String.eqb k0 k'); simpl; intuition.
Qed.

(** What [save_data] wrote is what a new manager reads. *)
Lemma reload_saved (self : StudentManager) :
  NoDup (dict_keys (students self)) ->
  Spec.valid_timestamps (students self) ->
  writable (data_file self) = true ->
  students (StudentManager_init (data_file (fst (save_data self))))
  = students self.
Proof.
  intros Hnd Hv Hw. unfold StudentManager_init, save_data.
  rewrite document_of_students by exact Hnd. rewrite Hw.
  unfold load_data. cbn [fst write_document data_file content].
  now rewrite students_of_document by assumption.
Qed.

Lemma save_data_read_only (self : StudentManager) :
  writable (data_file self) = false -> save_data self = (self, false).
Proof.
  intros Hw. unfold save_data. rewrite Hw.
  now destruct (document_of (students self)).
Qed.

(** X12.  Over a file that can be written, and with records of the
    data model (names and genders that are text, ages that are integers
    of [0,150], scores that are numbers of [0,100]), every mutation
    that succeeds is persisted: after [add_student] of a new id with
    such a record, [delete_student] of a stored id, or [update_student]
    of a stored id with such a name, age and gender, a manager
    constructed on the backing file holds exactly the records the
    mutated manager holds.  (The keys are distinct and the timestamps
    valid, as for every store built through the class.) *)
Theorem X12_mutations_are_persisted (self : StudentManager) :
  NoDup (dict_keys (students self)) ->
  Spec.valid_timestamps (students self) ->
  Spec.plain_store (students self) ->
  writable (data_file self) = true ->
  (forall student,
      find_student self (student_id student) = None ->
      Datetime.valid (create_time student) = true ->
      Spec.plain_record student ->
      students (StudentManager_init (data_file (fst (add_student self student))))
      = students (fst (add_student self student))) /\
  (forall sid old,
      find_student self sid = Some old ->
      students (StudentManager_init (data_file (fst (delete_student self sid))))
      = students (fst (delete_student self sid))) /\
  (forall sid old kwargs d,
      find_student self sid = Some old ->
      Spec.supplies_scores kwargs d ->
      Spec.plain_fields kwargs ->
      students (StudentManager_init
                  (data_file (fst (update_student self sid kwargs))))
      = students (fst (update_student self sid kwargs))).
Proof.
  intros Hnd Hv _ Hw. repeat split.
  - intros student Hnew Hvalid _. unfold add_student, find_student in *.
    rewrite dict_contains_get, Hnew. cbn [fst].
    rewrite students_save_data. apply reload_saved; cbn [students set_students data_file];
      [now apply NoDup_dict_set | | exact Hw].
    intros k x Hin. destruct (In_dict_set _ _ _ _ _ Hin) as [H|[_ ->]];
      [exact (Hv k x H) | exact Hvalid].
  - intros sid old Hold. unfold delete_student, find_student in *.
    rewrite dict_contains_get, Hold. cbn [negb fst].
    rewrite students_save_data. apply reload_saved; cbn [students set_students data_file];
      [now apply NoDup_dict_del | | exact Hw].
    intros k x Hin. exact (Hv k x (In_dict_del _ _ _ _ Hin)).
  - intros sid old kwargs d Hold Hsup _.
    rewrite (update_student_present self sid Hold Hsup). cbv zeta. cbn [fst].
    rewrite students_save_data. apply reload_saved; cbn [students set_students data_file];
      [now apply NoDup_dict_set | | exact Hw].
    intros k x Hin. destruct (In_dict_set _ _ _ _ _ Hin) as [H|[_ ->]];
      [exact (Hv k x H)|].
    rewrite add_scores_fields. cbn [create_time set_scores].
    apply (Hv sid old). now apply dict_get_Some_In.
Qed.

(** X13.  The result of [save_data] is dropped by the operations that
    call it: over a file that cannot be written, [add_student] of a new
    id, [delete_student] of a stored id and [update_student] of a
    stored id still return [True] and change the records in memory,
    while the file stays as it was. *)
Theorem X13_success_without_persistence (self : StudentManager) :
  writable (data_file self) = false ->
  save_data self = (self, false) /\
  (forall student,
      find_student self (student_id student) = None ->
      add_student self student
      = (set_students self
           (dict_set (students self) (student_id student) student), true)) /\
  (forall sid old,
      find_student self sid = Some old ->
      delete_student self sid
      = (set_students self (dict_del (students self) sid), true)) /\
  (forall sid old kwargs d,
      find_student self sid = Some old ->
      Spec.supplies_scores kwargs d ->
      exists student',
        update_student self sid kwargs
        = (set_students self (dict_set (students self) sid student'), Ok true)).
Proof.
  intros Hw. split; [now apply save_data_read_only|]. repeat split.
  - intros student Hnew. unfold add_student, find_student in *.
    rewrite dict_contains_get, Hnew.
    now rewrite save_data_read_only by exact Hw.
  - intros sid old Hold. unfold delete_student, find_student in *.
    rewrite dict_contains_get, Hold. cbn [negb].
    now rewrite save_data_read_only by exact Hw.
  - intros sid old kwargs d Hold Hsup.
    rewrite (update_student_present self sid Hold Hsup). cbv zeta.
    eexists. now rewrite save_data_read_only by exact Hw.
Qed.

(** X14.  The constructor drops the result of [load_data]: over a
    file on which the load fails the manager starts without records and
    nothing is reported; if the file can be written, the first
    [add_student] then replaces it by a document that holds the added
    record only. *)
Theorem X14_failed_load_then_add (f : file) (student : Student) :
  snd (load_data (mkManager f [])) = false ->
  StudentManager_init f = mkManager f [] /\
  (writable f = true ->
   snd (add_student (StudentManager_init f) student) = true /\
   content (data_file (fst (add_student (StudentManager_init f) student)))
   = Document (PyDict [("students"%string,
                        PyDict [(student_id student, to_dict student)])])).
Proof.
  intros Hfail.
  assert (Hinit : StudentManager_init f = mkManager f []).
  { unfold StudentManager_init. unfold load_data in *.
    cbn [data_file] in *. destruct (content f) as [| |doc]; try reflexivity.
    destruct (students_of doc); [discriminate | reflexivity]. }
  split; [exact Hinit|]. intros Hw. rewrite Hinit.
  change (add_student (mkManager f []) student)
    with (fst (save_data (mkManager f [(student_id student, student)])), true).
  cbn [fst snd]. split; [reflexivity|].
  unfold save_data. cbn [students data_file].
  rewrite document_of_students by (repeat constructor; simpl; tauto).
  now rewrite Hw.
Qed.

Lemma dict_del_appended {V : Type} (d : dict V) (k : string) (v : V) :
  ~ In k (dict_keys d) -> dict_del (d ++ [(k, v)]) k = d.
Proof.
  induction d as [|[k' v'] d IH]; simpl; intros Hn.
  - now rewrite String.eqb_refl.
  - destruct (String.eqb_spec k k') as [->|Hne]; [tauto|].
    rewrite IH; tauto.
Qed.

(** X15.  Adding a record under a new id and deleting that id again
    gives back the mapping of records as it was, order included; both
    calls return [True]. *)
Theorem X15_add_then_delete (self : StudentManager) (student : Student) :
  find_student self (student_id student) = None ->
  snd (add_student self student) = true /\
  snd (delete_student (fst (add_student self student)) (student_id student))
  = true /\
  students (fst (delete_student (fst (add_student self student))
                                (student_id student)))
  = students self.
Proof.
  intros Hnew. unfold find_student in Hnew.
  assert (Hadd : students (fst (add_student self student))
                 = students self ++ [(student_id student, student)]).
  { unfold add_student. rewrite dict_contains_get, Hnew. cbn [fst].
    rewrite students_save_data. cbn [students set_students].
    apply dict_set_fresh. now apply dict_get_None_notin. }
  assert (Hin : dict_get (students (fst (add_student self student)))
                         (student_id student) = Some student).
  { unfold add_student. rewrite dict_contains_get, Hnew. cbn [fst].
    rewrite students_save_data. cbn [students set_students].
    apply dict_get_set_same. }
  split; [unfold add_student; now rewrite dict_contains_get, Hnew|].
  unfold delete_student. rewrite dict_contains_get, Hin. cbn [negb fst snd].
  split; [reflexivity|].
  rewrite students_save_data. cbn [students set_students]. rewrite Hadd.
  apply dict_del_appended. now apply dict_get_None_notin.
Qed.

(** ** [Student.add_score]: writing a subject twice *)

Lemma dict_set_set {V : Type} (d : dict V) (k : string) (v1 v2 : V) :
  dict_set (dict_set d k v1) k v2 = dict_set d k v2.
Proof.
  induction d as [|[k' v'] d IH]; simpl.
  - now rewrite String.eqb_refl.
  - destruct (String.eqb k k') eqn:E; simpl; rewrite E; congruence.
Qed.

Lemma dict_set_length {V : Type} (d : dict V) (k : string) (v : V) :
  len (dict_set d k v) = (len d + if dict_contains d k then 0 else 1)%Z.
Proof.
  unfold len. rewrite <- (length_map fst (dict_set d k v)), <- (length_map fst d).
  change (map fst (dict_set d k v)) with (dict_keys (dict_set d k v)).
  change (map fst d) with (dict_keys d).
  rewrite dict_keys_set. destruct (dict_contains d k); [lia|].
  rewrite length_app. simpl. lia.
Qed.

(** X16.  Of two accepted scores written to one subject the later one
    stays: the record is the one the second call alone would give.  An
    accepted score adds a subject only when the subject is new. *)
Theorem X16_add_score_twice (s : Student) (subject : string) (v1 v2 : pyval) :
  Spec.in_range v1 -> Spec.in_range v2 ->
  fst (add_score (fst (add_score s subject v1)) subject v2)
  = fst (add_score s subject v2) /\
  len (scores (fst (add_score s subject v1)))
  = (len (scores s) + if dict_contains (scores s) subject then 0 else 1)%Z.
Proof.
  intros H1 H2.
  rewrite (add_score_accepts s subject H1). cbn [fst].
  rewrite (add_score_accepts _ subject H2), (add_score_accepts s subject H2).
  cbn [fst scores set_scores]. split.
  - unfold set_scores. cbn [student_id name age gender scores create_time].
    now rewrite dict_set_set.
  - apply dict_set_length.
Qed.

(** ** [StudentManager.update_student]: scores that are no mapping *)

(** X17.  When the [scores] given to [update_student] for a stored id
    are not a dictionary, the call raises [AttributeError] after the
    supplied name, age and gender have been assigned: the record in
    memory has them, nothing is written to the file, and no score
    changes. *)
Theorem X17_update_student_partial (self : StudentManager) (sid : string)
        (s : Student) (kwargs : dict pyval) (v : pyval) :
  find_student self sid = Some s ->
  dict_get kwargs "scores" = Some v ->
  (forall d, v <> PyDict d) ->
  update_student self sid kwargs
  = (set_students self
       (dict_set (students self) sid
          (mkStudent (student_id s)
                     (Spec.supplied kwargs "name" (name s))
                     (Spec.supplied kwargs "age" (age s))
                     (Spec.supplied kwargs "gender" (gender s))
                     (scores s) (create_time s))),
     Raise AttributeError).
Proof.
  intros Hfind Hsc Hv. unfold find_student in Hfind. unfold update_student.
  rewrite Hfind, update_field_name, update_field_age, update_field_gender, Hsc.
  destruct v; try reflexivity. now destruct (Hv d).
Qed.

(** ** [Student.from_dict]: what it takes from the document *)

Lemma from_dict_fields (d : dict pyval) (s : Student) :
  from_dict (PyDict d) = Ok s ->
  dict_get d "student_id" = Some (PyStr (student_id s)) /\
  dict_get d "name" = Some (name s) /\
  dict_get d "age" = Some (age s) /\
  dict_get d "gender" = Some (gender s) /\
  exists text, dict_get d "create_time" = Some (PyStr text) /\
               fromisoformat text = Ok (create_time s).
Proof.
  unfold from_dict. cbn [py_getitem py_get].
  destruct (dict_get d "student_id") as [sid|]; [|discriminate].
  destruct (dict_get d "name") as [nm|]; [|discriminate].
  destruct (dict_get d "age") as [ag|]; [|discriminate].
  destruct (dict_get d "gender") as [gd|]; [|discriminate].
  cbn [bind]. destruct sid; try discriminate. cbn [as_str bind].
  destruct (match dict_get d "scores" with Some x => Ok x | None => Ok (PyDict []) end)
    as [sc|]; [|discriminate].
  cbn [bind]. destruct sc; try discriminate. cbn [as_dict bind].
  destruct (dict_get d "create_time") as [ct|]; [|discriminate]. cbn [bind].
  destruct ct; try discriminate. cbn [py_fromisoformat].
  destruct (fromisoformat s1) as [t|] eqn:Et; [|discriminate]. cbn [bind].
  intros [= <-]. cbn. repeat split; eauto.
Qed.

(** X18.  [from_dict] raises [TypeError] on a value that is not a
    dictionary and raises when one of the keys [student_id], [name],
    [age], [gender], [create_time] is missing ([KeyError] for
    [student_id]); [scores] alone is optional and defaults to no
    scores.  When it succeeds, the five fields and the scores of the
    record are the ones of the document: nothing is checked against
    the ranges of the data model. *)
Theorem X18_from_dict_reads_document (data : pyval) :
  ((forall d, data <> PyDict d) -> from_dict data = Raise TypeError) /\
  (forall d,
      data = PyDict d ->
      (dict_get d "student_id" = None ->
       from_dict data = Raise (KeyError "student_id")) /\
      (forall key,
          In key ["student_id"; "name"; "age"; "gender"; "create_time"]%string ->
          dict_get d key = None -> exists e, from_dict data = Raise e) /\
      (forall s,
          from_dict data = Ok s ->
          dict_get d "student_id" = Some (PyStr (student_id s)) /\
          dict_get d "name" = Some (name s) /\
          dict_get d "age" = Some (age s) /\
          dict_get d "gender" = Some (gender s) /\
          (dict_get d "scores" = None -> scores s = []) /\
          (forall sc, dict_get d "scores" = Some sc -> sc = PyDict (scores s)))).
Proof.
  split.
  - intros Hnd. destruct data; try reflexivity. now destruct (Hnd d).
  - intros d ->. split; [|split].
    + intros H. unfold from_dict. cbn [py_getitem]. now rewrite H.
    + intros key Hkey Hnone.
      destruct (from_dict (PyDict d)) as [s|e] eqn:E; [|now exists e].
      exfalso. destruct (from_dict_fields d E) as (H1 & H2 & H3 & H4 & t & H5 & _).
      simpl in Hkey.
      destruct Hkey as [<-|[<-|[<-|[<-|[<-|[]]]]]]; congruence.
    + intros s Hs.
      destruct (from_dict_fields d Hs) as (H1 & H2 & H3 & H4 & _).
      pose proof (@from_dict_keeps_scores (PyDict d) s Hs) as Hsc.
      cbn [py_get] in Hsc.
      repeat split; auto.
      * intros Hnone. rewrite Hnone in Hsc. now inversion Hsc.
      * intros sc Hsome. rewrite Hsome in Hsc. now inversion Hsc.
Qed.

(** ** The bands of [show_statistics_ui] *)

Lemma Qle_bool_false_lt (x y : Q) : Qle_bool x y = false -> y < x.
Proof.
  intros H. apply Qnot_le_lt. intros Hle. apply Qle_bool_iff in Hle. congruence.
Qed.

(** An average of [0,100] is in exactly one band, or between two. *)
Lemma band_or_gap (a : Q) :
  0 <= a -> a <= 100 ->
  (Spec.indicator (Spec.in_band 90 100 a) + Spec.indicator (Spec.in_band 80 89 a) +
   Spec.indicator (Spec.in_band 70 79 a) + Spec.indicator (Spec.in_band 60 69 a) +
   Spec.indicator (Spec.in_band 0 59 a) + Spec.indicator (Spec.in_gap a) = 1)%Z.
Proof.
  intros H0 H100. unfold Spec.in_band, Spec.in_gap, Qltb, inject_Z.
  split_comparisons; reflexivity.
Qed.

Lemma count_if_cons (p : Q -> bool) (a : Q) (l : list Q) :
  Spec.count_if p (a :: l) = (Spec.indicator (p a) + Spec.count_if p l)%Z.
Proof.
  unfold Spec.count_if, Spec.indicator. cbn [filter].
  destruct (p a); cbn [List.length]; rewrite ?Nat2Z.inj_succ; lia.
Qed.

Lemma bands_and_gaps (l : list Q) :
  (forall a, In a l -> 0 <= a /\ a <= 100) ->
  (Spec.count_if (Spec.in_band 90 100) l + Spec.count_if (Spec.in_band 80 89) l +
   Spec.count_if (Spec.in_band 70 79) l + Spec.count_if (Spec.in_band 60 69) l +
   Spec.count_if (Spec.in_band 0 59) l + Spec.count_if Spec.in_gap l
   = Z.of_nat (List.length l))%Z.
Proof.
  induction l as [|a l IH]; intros H; [reflexivity|].
  rewrite !count_if_cons. cbn [List.length]. rewrite Nat2Z.inj_succ.
  destruct (H a (or_introl eq_refl)) as [H0 H100].
  pose proof (@band_or_gap a H0 H100).
  assert (IH' := IH (fun x Hx => H x (or_intror Hx))). lia.
Qed.

Lemma in_score_range_band (s : Student) (lo hi : Z) :
  Forall Spec.finite_number (dict_values (scores s)) ->
  in_score_range (PyInt lo) (PyInt hi) s
  = Ok (Spec.in_band lo hi (Spec.average_of s)).
Proof.
  intros Hfin.
  destruct (@in_score_range_finite s (PyInt lo) (PyInt hi)
              (inject_Z lo) (inject_Z hi) Hfin eq_refl eq_refl) as (b & -> & Hiff).
  f_equal. unfold Spec.in_band.
  destruct b.
  - destruct (proj1 Hiff eq_refl) as [H1 H2].
    apply Qle_bool_iff in H1, H2. now rewrite H1, H2.
  - destruct (Qle_bool (inject_Z lo) (Spec.average_of s)) eqn:E1; [|reflexivity].
    destruct (Qle_bool (Spec.average_of s) (inject_Z hi)) eqn:E2; [|reflexivity].
    apply Qle_bool_iff in E1, E2.
    assert (Habs : false = true) by (apply Hiff; now split). discriminate.
Qed.

Lemma filter_map_length {A B : Type} (f : A -> B) (p : B -> bool) (l : list A) :
  List.length (filter (fun x => p (f x)) l) = List.length (filter p (map f l)).
Proof.
  induction l as [|x l IH]; simpl; [reflexivity|].
  destruct (p (f x)); simpl; congruence.
Qed.

Lemma range_count_band (l : list Student) (lo hi : Z) :
  (forall s, In s l -> Forall Spec.finite_number (dict_values (scores s))) ->
  range_count l lo hi
  = Ok (Spec.count_if (Spec.in_band lo hi) (map Spec.average_of l)).
Proof.
  intros Hfin. unfold range_count.
  rewrite (select_filter (in_score_range (PyInt lo) (PyInt hi))
             (fun s => Spec.in_band lo hi (Spec.average_of s))).
  - cbn [bind]. unfold Spec.count_if. now rewrite filter_map_length.
  - intros s Hs. apply in_score_range_band. now apply Hfin.
Qed.

(** With averages computed exactly, each count is the number of means
    in its band, and the means strictly between two bands are counted
    nowhere. *)
Lemma statistics_bands_exact (self : StudentManager) :
  students self <> [] ->
  Spec.valid_store (students self) ->
  let avgs := Spec.averages (students self) in
  show_statistics_ui_counts self
  = Ok [ Spec.count_if (Spec.in_band 90 100) avgs;
         Spec.count_if (Spec.in_band 80 89) avgs;
         Spec.count_if (Spec.in_band 70 79) avgs;
         Spec.count_if (Spec.in_band 60 69) avgs;
         Spec.count_if (Spec.in_band 0 59) avgs ] /\
  (Spec.count_if (Spec.in_band 90 100) avgs +
   Spec.count_if (Spec.in_band 80 89) avgs +
   Spec.count_if (Spec.in_band 70 79) avgs +
   Spec.count_if (Spec.in_band 60 69) avgs +
   Spec.count_if (Spec.in_band 0 59) avgs
   = Z.of_nat (List.length (students self)) - Spec.count_if Spec.in_gap avgs)%Z.
Proof.
  intros Hne Hvalid. cbv zeta. split.
  - unfold show_statistics_ui_counts.
    destruct (get_class_statistics_computed self Hne (valid_store_finite Hvalid))
      as (avgs & mean & mx & mn & _ & _ & -> & _).
    cbn [bind total_students].
    assert (Hlen : (len (students self) =? 0)%Z = false).
    { apply Z.eqb_neq. unfold len. destruct (students self); [congruence|].
      simpl. lia. }
    rewrite Hlen. cbn [ranges list_comprehension].
    assert (Hfin : forall s, In s (get_all_students self) ->
                             Forall Spec.finite_number (dict_values (scores s))).
    { intros s Hs. apply In_dict_values in Hs. destruct Hs as [sid Hin].
      apply valid_scores_finite. exact (Hvalid sid s Hin). }
    rewrite !(range_count_band _ _ _ Hfin). reflexivity.
  - assert (Hlen : List.length (Spec.averages (students self))
                   = List.length (students self))
      by (unfold Spec.averages, dict_values; now rewrite !length_map).
    rewrite <- Hlen, <- (@bands_and_gaps (Spec.averages (students self))); [lia|].
    intros a Ha. unfold Spec.averages in Ha. apply in_map_iff in Ha.
    destruct Ha as (s & <- & Hs). apply In_dict_values in Hs.
    destruct Hs as [sid Hin]. apply average_of_bounds. exact (Hvalid sid s Hin).
Qed.

Lemma in_gap_compat (a b : Q) : a == b -> Spec.in_gap a = Spec.in_gap b.
Proof.
  intros H. unfold Spec.in_gap, Qltb. now rewrite H.
Qed.

Lemma average_of_single (s : Student) (subject : string) (v : pyval) :
  scores s = [(subject, v)] -> Spec.average_of s == Spec.q_of v.
Proof.
  intros Hsc. unfold Spec.average_of. rewrite Hsc.
  change (Spec.mean (map Spec.q_of (dict_values [(subject, v)])))
    with ((Spec.q_of v + 0) / 1).
  field.
Qed.

(** X19.  For a store with records that satisfies the invariant on
    scores, [show_statistics_ui] computes five counts, one per band
    90-100, 80-89, 70-79, 60-69, 0-59.  No count is negative and
    together they do not exceed the number of records: no record is
    counted twice.  A record without scores is counted in the band
    0-59.  The bands do not cover [0,100]: a record whose one score
    lies strictly between 59 and 60, 69 and 70, 79 and 80, or 89 and
    90 is counted in no band, so that the counts add up to less than
    the number of records. *)
Theorem X19_statistics_bands (self : StudentManager) :
  students self <> [] ->
  Spec.valid_store (students self) ->
  exists c90 c80 c70 c60 c0 : Z,
    show_statistics_ui_counts self = Ok [c90; c80; c70; c60; c0] /\
    (0 <= c90 /\ 0 <= c80 /\ 0 <= c70 /\ 0 <= c60 /\ 0 <= c0)%Z /\
    (c90 + c80 + c70 + c60 + c0 <= Z.of_nat (List.length (students self)))%Z /\
    (forall sid s,
        find_student self sid = Some s -> scores s = [] -> (1 <= c0)%Z) /\
    (forall sid s subject v,
        find_student self sid = Some s ->
        scores s = [(subject, v)] ->
        Spec.in_gap (Spec.q_of v) = true ->
        (c90 + c80 + c70 + c60 + c0 < Z.of_nat (List.length (students self)))%Z).
Proof.
  intros Hne Hvalid.
  destruct (@statistics_bands_exact self Hne Hvalid) as [Hcounts Hsum].
  cbv zeta in Hcounts, Hsum.
  do 5 eexists. split; [exact Hcounts|].
  assert (Hin : forall sid s, find_student self sid = Some s ->
                              In (Spec.average_of s) (Spec.averages (students self))).
  { intros sid s Hs. unfold Spec.averages. apply in_map. apply In_dict_values.
    exists sid. now apply dict_get_Some_In. }
  split; [unfold Spec.count_if; lia|].
  split; [unfold Spec.count_if in *; lia|]. split.
  - intros sid s Hs Hempty.
    apply (@count_if_positive _ _ (Spec.average_of s)); [exact (Hin sid s Hs)|].
    unfold Spec.average_of. now rewrite Hempty.
  - intros sid s subject v Hs Hsc Hgap.
    assert (Hpos : (1 <= Spec.count_if Spec.in_gap (Spec.averages (students self)))%Z).
    { apply (@count_if_positive _ _ (Spec.average_of s)); [exact (Hin sid s Hs)|].
      now rewrite (in_gap_compat (average_of_single s Hsc)). }
    lia.
Qed.

(** ** The sample data satisfies the hypotheses *)

Lemma two_students_valid : Spec.valid_store (students Sample.two_students).
Proof.
  intros sid s Hin subject v Hsc. vm_compute in Hin.
  destruct Hin as [Hin|[Hin|[]]]; inversion Hin; subst; clear Hin; simpl in Hsc.
  - destruct Hsc as [Hsc|[Hsc|[]]]; inversion Hsc; subst.
    + exists (inject_Z 95). split; [reflexivity|]. split; unfold Qle; simpl; lia.
    + exists (1 # 2). split; [reflexivity|]. split; unfold Qle; simpl; lia.
  - contradiction.
Qed.

Lemma two_students_plain : Spec.plain_store (students Sample.two_students).
Proof.
  intros sid s Hin. pose proof (@two_students_valid sid s Hin) as Hvalid.
  vm_compute in Hin.
  destruct Hin as [Hin|[Hin|[]]]; inversion Hin; subst; clear Hin;
    (split; [eexists; reflexivity|]);
    (split; [exists 20%Z; split; [reflexivity|lia]|]);
    (split; [eexists; reflexivity|]); exact Hvalid.
Qed.

Lemma two_students_text : Spec.text_fields (students Sample.two_students).
Proof.
  intros sid s Hin. vm_compute in Hin.
  destruct Hin as [Hin|[Hin|[]]]; inversion Hin; subst; split; eexists; reflexivity.
Qed.

Lemma two_students_distinct : NoDup (dict_keys (students Sample.two_students)).
Proof. vm_compute. repeat constructor; simpl; intuition discriminate. Qed.

Lemma two_students_timestamps :
  Spec.valid_timestamps (students Sample.two_students).
Proof.
  intros sid s Hin. vm_compute in Hin.
  destruct Hin as [Hin|[Hin|[]]]; inversion Hin; reflexivity.
Qed.

Lemma two_students_keyed : Spec.keyed_by_id (students Sample.two_students).
Proof.
  intros sid s Hin. vm_compute in Hin.
  destruct Hin as [Hin|[Hin|[]]]; inversion Hin; reflexivity.
Qed.

Lemma ann_valid : Spec.valid_scores (scores Sample.ann).
Proof.
  apply (two_students_valid (sid := "s1"%string) (s := Sample.ann)).
  vm_compute. now left.
Qed.

Lemma in_range_int (z : Z) : (0 <= z <= 100)%Z -> Spec.in_range (PyInt z).
Proof.
  intros Hz. exists (inject_Z z). split; [reflexivity|].
  split; unfold Qle; simpl; lia.
Qed.

(** ** Witnesses *)

Lemma X1_search_students_matches_witness :
  exists found : list Student,
    search_students Sample.two_students "nn" = Ok found /\
    Spec.selection_of found (get_all_students Sample.two_students) /\
    forall s, In s found <->
              In s (get_all_students Sample.two_students) /\ Spec.matches "nn" s.
Proof. exact (X1_search_students_matches Sample.two_students "nn" two_students_text). Defined.

Lemma X3_search_students_after_numeric_name_witness :
  search_students
    (fst (update_student Sample.two_students "s1" [("name"%string, PyInt 7)])) "Bob"
  = Raise TypeError.
Proof.
  apply (@X3_search_students_after_numeric_name Sample.two_students "s1" "Bob"
           Sample.ann 7); reflexivity.
Defined.

Lemma X4_average_in_range_witness :
  exists a : Q,
    get_average_score Sample.ann = Ok (Finite a) /\ 0 <= a /\ a <= 100.
Proof. exact (X4_average_in_range Sample.ann ann_valid). Defined.

Lemma X5_score_range_selects_witness :
  exists found : list Student,
    get_students_by_score_range Sample.two_students (PyInt 40) (PyFloat (Finite 50))
    = Ok found /\
    Spec.selection_of found (get_all_students Sample.two_students) /\
    (50 < inject_Z 40 -> found = []) /\
    (forall s, In s (get_all_students Sample.two_students) -> scores s = [] ->
               (In s found <-> inject_Z 40 <= 0 /\ 0 <= 50)) /\
    (forall (min' max' : pyval) (lo' hi' : Q),
        float_value min' = Some (Finite lo') ->
        float_value max' = Some (Finite hi') ->
        lo' <= inject_Z 40 -> 50 <= hi' ->
        exists wider : list Student,
          get_students_by_score_range Sample.two_students min' max' = Ok wider /\
          forall s, In s found -> In s wider).
Proof.
  apply (@X5_score_range_selects Sample.two_students (PyInt 40) (PyFloat (Finite 50))
           (inject_Z 40) 50).
  - exact two_students_valid.
  - reflexivity.
  - reflexivity.
Defined.

Lemma X6_score_range_full_witness :
  get_students_by_score_range Sample.two_students (PyInt 0) (PyInt 100)
  = Ok (get_all_students Sample.two_students).
Proof.
  apply (@X6_score_range_full Sample.two_students (PyInt 0) (PyInt 100)
           (inject_Z 0) (inject_Z 100)).
  - exact two_students_valid.
  - reflexivity.
  - reflexivity.
  - unfold Qle; simpl; lia.
  - unfold Qle; simpl; lia.
Defined.

Lemma X7_statistics_consistent_witness :
  exists (r : statistics) (mean mx mn : Q),
    get_class_statistics Sample.two_students = Ok r /\
    total_students r = 2%Z /\
    average_score r = PyFloat (Finite mean) /\
    max_score r = PyFloat (Finite mx) /\
    min_score r = PyFloat (Finite mn) /\
    0 <= mn /\ mn <= mx /\ mx <= 100 /\
    0 <= mean /\ mean <= 100 /\
    (0 <= excellent_count r)%Z /\ (0 <= fail_count r)%Z /\
    (excellent_count r + fail_count r <= total_students r)%Z.
Proof.
  apply (X7_statistics_consistent Sample.two_students).
  - discriminate.
  - exact two_students_valid.
Defined.

Lemma X8_total_score_witness :
  get_total_score (Sample.student_with "i" Sample.t0
                     [("math"%string, PyInt 95); ("art"%string, PyBool true)])
  = Ok (PyInt 96) /\
  exists (total : pyval) (q : Q),
    get_total_score Sample.ann = Ok total /\
    float_value total = Some (Finite q) /\
    0 <= q /\ q <= 100 * inject_Z (len (scores Sample.ann)).
Proof.
  split.
  - apply (proj1 (X8_total_score
                    (Sample.student_with "i" Sample.t0
                       [("math"%string, PyInt 95); ("art"%string, PyBool true)]))).
    intros subject v Hin. simpl in Hin.
    destruct Hin as [Hin|[Hin|[]]]; inversion Hin; subst; eexists; reflexivity.
  - apply (proj2 (proj2 (X8_total_score Sample.ann))). exact ann_valid.
Defined.

Lemma X9_keys_stay_distinct_witness :
  NoDup (dict_keys (students (fst (add_student Sample.two_students Sample.bob)))) /\
  NoDup (dict_keys (students (fst (delete_student Sample.two_students "s1")))).
Proof.
  destruct (X9_keys_stay_distinct Sample.two_students two_students_distinct)
    as (Hadd & Hdel & _).
  split; [apply Hadd | apply Hdel].
Defined.

Lemma X10_records_keyed_by_id_witness :
  Spec.keyed_by_id
    (students (fst (update_student Sample.two_students "s1" Sample.patch))).
Proof.
  apply (proj2 (proj2 (X10_records_keyed_by_id Sample.two_students
                         two_students_keyed))).
Defined.

Lemma X11_load_data_uses_document_keys_witness :
  find_student (fst (load_data Sample.over_misfiled_file)) "a" = Some Sample.ann /\
  student_id Sample.ann = "s1"%string.
Proof.
  split; [|reflexivity].
  apply (@X11_load_data_uses_document_keys Sample.over_misfiled_file
           Sample.misfiled_document [("a"%string, to_dict Sample.ann)]
           "a" (to_dict Sample.ann) Sample.ann).
  - reflexivity.
  - reflexivity.
  - repeat constructor; simpl; tauto.
  - now left.
  - reflexivity.
  - reflexivity.
Defined.

Lemma X12_mutations_are_persisted_witness :
  students (StudentManager_init
              (data_file (fst (delete_student Sample.two_students "s1"))))
  = students (fst (delete_student Sample.two_students "s1")) /\
  students (StudentManager_init
              (data_file (fst (update_student Sample.two_students "s2"
                                 [("age"%string, PyInt 21)]))))
  = students (fst (update_student Sample.two_students "s2"
                     [("age"%string, PyInt 21)])).
Proof.
  destruct (X12_mutations_are_persisted Sample.two_students
              two_students_distinct two_students_timestamps
              two_students_plain eq_refl) as (_ & Hdelete & Hupdate).
  split.
  - apply (Hdelete "s1"%string Sample.ann). reflexivity.
  - apply (Hupdate "s2"%string Sample.bob [("age"%string, PyInt 21)] []).
    + reflexivity.
    + now left.
    + repeat split; intros v Hv; try discriminate.
      inversion Hv; subst. exists 21%Z. split; [reflexivity|lia].
Defined.

Lemma X13_success_without_persistence_witness :
  delete_student Sample.read_only_class "s1"
  = (set_students Sample.read_only_class
       (dict_del (students Sample.read_only_class) "s1"), true).
Proof.
  apply (proj1 (proj2 (proj2 (X13_success_without_persistence
                                Sample.read_only_class eq_refl)))
           "s1"%string Sample.ann).
  reflexivity.
Defined.

Lemma X14_failed_load_then_add_witness :
  StudentManager_init Sample.unparsable_file
  = mkManager Sample.unparsable_file [] /\
  content (data_file (fst (add_student
                             (StudentManager_init Sample.unparsable_file)
                             Sample.bob)))
  = Document (PyDict [("students"%string,
                       PyDict [("s2"%string, to_dict Sample.bob)])]).
Proof.
  destruct (X14_failed_load_then_add Sample.unparsable_file Sample.bob eq_refl)
    as [Hinit Hadd].
  split; [exact Hinit|]. exact (proj2 (Hadd eq_refl)).
Defined.

Lemma X15_add_then_delete_witness :
  students (fst (delete_student
                   (fst (add_student (Sample.class_of [Sample.ann]) Sample.bob))
                   "s2"))
  = students (Sample.class_of [Sample.ann]).
Proof.
  apply (proj2 (proj2 (X15_add_then_delete (Sample.class_of [Sample.ann])
                         Sample.bob eq_refl))).
Defined.

Lemma X16_add_score_twice_witness :
  fst (add_score (fst (add_score Sample.bob "math" (PyInt 50))) "math" (PyInt 60))
  = fst (add_score Sample.bob "math" (PyInt 60)).
Proof.
  apply (proj1 (@X16_add_score_twice Sample.bob "math" (PyInt 50) (PyInt 60)
                  (@in_range_int 50%Z ltac:(lia)) (@in_range_int 60%Z ltac:(lia)))).
Defined.

Lemma X17_update_student_partial_witness :
  snd (update_student Sample.two_students "s1"
                      [("name"%string, PyStr "Anna"); ("scores"%string, PyNone)])
  = Raise AttributeError /\
  option_map name
    (find_student
       (fst (update_student Sample.two_students "s1"
                            [("name"%string, PyStr "Anna");
                             ("scores"%string, PyNone)])) "s1")
  = Some (PyStr "Anna").
Proof.
  rewrite (@X17_update_student_partial Sample.two_students "s1" Sample.ann
             [("name"%string, PyStr "Anna"); ("scores"%string, PyNone)] PyNone
             eq_refl eq_refl ltac:(discriminate)).
  split; reflexivity.
Defined.

Lemma X18_from_dict_reads_document_witness :
  from_dict (PyList []) = Raise TypeError /\
  from_dict (PyDict [("name"%string, PyStr "Ann")])
  = Raise (KeyError "student_id") /\
  (exists e, from_dict (PyDict [("student_id"%string, PyStr "s1")]) = Raise e).
Proof.
  split; [|split].
  - apply (proj1 (X18_from_dict_reads_document (PyList []))). discriminate.
  - apply (proj1 (proj2 (X18_from_dict_reads_document
                           (PyDict [("name"%string, PyStr "Ann")])) _ eq_refl)).
    reflexivity.
  - apply (proj1 (proj2 (proj2 (X18_from_dict_reads_document
                                  (PyDict [("student_id"%string, PyStr "s1")]))
                                _ eq_refl)) "age"%string).
    + simpl. tauto.
    + reflexivity.
Defined.

Lemma X19_statistics_bands_witness :
  exists c90 c80 c70 c60 c0 : Z,
    show_statistics_ui_counts Sample.gap_single_class
    = Ok [c90; c80; c70; c60; c0] /\
    (c90 + c80 + c70 + c60 + c0 < 1)%Z.
Proof.
  destruct (X19_statistics_bands Sample.gap_single_class)
    as (c90 & c80 & c70 & c60 & c0 & Hcounts & _ & _ & _ & Hgap).
  - discriminate.
  - intros sid s Hin subject v Hsc. vm_compute in Hin.
    destruct Hin as [Hin|[]]; inversion Hin; subst; clear Hin; simpl in Hsc.
    destruct Hsc as [Hsc|[]]; inversion Hsc; subst.
    exists (179 # 2). split; [reflexivity|]. split; unfold Qle; simpl; lia.
  - exists c90, c80, c70, c60, c0. split; [exact Hcounts|].
    apply (Hgap "g"%string
             (Sample.student_with "g" Sample.t0
                [("math"%string, PyFloat (Finite (179 # 2)))])
             "math"%string (PyFloat (Finite (179 # 2))));
      reflexivity.
Defined.

(** ** The order of the records *)

(** X20.  The records are kept in the order in which their ids were
    first added: [add_student] of a new id puts the record last in
    [get_all_students]; [update_student] leaves the ids and their
    order as they are, whatever it is given; [delete_student] removes
    the one id and keeps the others in their order. *)
Theorem X20_order_of_records (self : StudentManager) :
  (forall student,
      find_student self (student_id student) = None ->
      get_all_students (fst (add_student self student))
      = get_all_students self ++ [student]) /\
  (forall sid kwargs,
      dict_keys (students (fst (update_student self sid kwargs)))
      = dict_keys (students self)) /\
  (forall sid,
      dict_keys (students (fst (delete_student self sid)))
      = filter (fun k => negb (String.eqb sid k)) (dict_keys (students self))).
Proof.
  repeat split.
  - intros student Hnew. unfold find_student in Hnew.
    unfold get_all_students, add_student. rewrite dict_contains_get, Hnew.
    cbn [fst]. rewrite students_save_data. cbn [students set_students].
    rewrite dict_set_fresh by now apply dict_get_None_notin.
    unfold dict_values. now rewrite map_app.
  - intros sid kwargs.
    destruct (students_update_student self sid kwargs)
      as [->|(s & s' & Hfind & _ & _ & ->)]; [reflexivity|].
    rewrite dict_keys_set, dict_contains_get.
    unfold find_student in Hfind. now rewrite Hfind.
  - intros sid. unfold delete_student. rewrite dict_contains_get.
    destruct (dict_get (students self) sid) eqn:E; cbn [negb fst].
    + rewrite students_save_data. cbn [students set_students].
      apply dict_keys_del.
    + symmetry. apply dict_get_None_notin in E.
      induction (dict_keys (students self)) as [|k l IH]; [reflexivity|].
      simpl. destruct (String.eqb_spec sid k) as [->|Hne].
      * exfalso. apply E. now left.
      * cbn [negb]. f_equal. apply IH. intros H. apply E. now right.
Qed.

Lemma X20_order_of_records_witness :
  get_all_students (fst (add_student (Sample.class_of [Sample.ann]) Sample.bob))
  = get_all_students (Sample.class_of [Sample.ann]) ++ [Sample.bob].
Proof.
  apply (proj1 (X20_order_of_records (Sample.class_of [Sample.ann])) Sample.bob).
  reflexivity.
Defined.
